(** * watson: the API client and the outputs data source

    A shallow embedding of [internal/client/client.go] (configuration
    resolution, stack-name validation, the two GET calls), of the [Read] and
    [Configure] methods of [internal/provider/watson_data_outputs.go] and of
    the [Configure] method of [internal/provider/provider.go], with the
    properties of the specification stated over it and further properties
    read off the code.

    Conventions.
    - A Go [string] is a sequence of bytes: Rocq's [string].
    - A Go function returning [(T, error)] returns a [result T]; a pointer
      result that may be [nil] is an [option].
    - [fmt.Errorf] values are kept structured: one constructor of [error] per
      format string of the source, carrying the formatted arguments.
    - Code that mutates the object behind a pointer returns the object's
      final state next to its result.
    - Calls into libraries whose text is not part of the repository
      (net/http, encoding/json, strconv) are taken from a [GoLib] record. *)

From Stdlib Require Import String Ascii ZArith List.
From stdpp Require Import base option list strings gmap fin_maps pretty.

Local Open Scope string_scope.
Local Open Scope Z_scope.

Set Warnings "-register-all".

(** ** Go's [strings] package, as far as the client calls it *)

Module strings.

(** [s[n:]] for [n <= len(s)]. *)
Fixpoint skip (n : nat) (s : string) : string :=
  match n, s with
  | O, _ => s
  | S n', String _ s' => skip n' s'
  | S _, EmptyString => EmptyString
  end.

(** [s[:n]] for [n <= len(s)]. *)
Fixpoint keep (n : nat) (s : string) : string :=
  match n, s with
  | O, _ => EmptyString
  | S n', String c s' => String c (keep n' s')
  | S _, EmptyString => EmptyString
  end.

(** [strings.HasPrefix(s, prefix)]. *)
Definition HasPrefix (s prefix : string) : bool := String.prefix prefix s.

(** [strings.Index(s, sep)]: the index of the first instance of [sep] in
    [s]; Go's [-1] is [None]. *)
Fixpoint Index (s sep : string) : option nat :=
  if HasPrefix s sep then Some O
  else match s with
       | EmptyString => None
       | String _ s' => S <$> Index s' sep
       end.

(** The loop of [strings.Count] for a non-empty [substr]: instances are
    counted without overlap, so after a match the next [len(substr) - 1]
    positions are passed over ([wait] counts them down). *)
Fixpoint Count_from (wait : nat) (s substr : string) : nat :=
  match s with
  | EmptyString => O
  | String _ s' =>
      match wait with
      | S w => Count_from w s' substr
      | O => if HasPrefix s substr
             then S (Count_from (String.length substr - 1) s' substr)
             else Count_from O s' substr
      end
  end.

(** [strings.Count(s, substr)] for a non-empty [substr] (for the empty one
    Go counts code points, which no caller here asks for). *)
Definition Count (s substr : string) : nat := Count_from O s substr.

(** The loop of [genSplit]: at most [k] cuts, the rest in the last slot. *)
Fixpoint genSplit_loop (k : nat) (s sep : string) : list string :=
  match k with
  | O => [s]
  | S k' =>
      match Index s sep with
      | None => [s]
      | Some m =>
          keep m s :: genSplit_loop k' (skip (m + String.length sep) s) sep
      end
  end.

(** [strings.SplitN(s, sep, n)] for a non-empty [sep]: [n = 0] gives
    [nil], [n < 0] all the pieces, [n > 0] at most [n] pieces, the last
    one the unsplit remainder. *)
Definition SplitN (s sep : string) (n : Z) : list string :=
  if n =? 0 then []
  else
    let n := if n <? 0 then Z.of_nat (Count s sep) + 1 else n in
    let n := if Z.of_nat (String.length s) + 1 <? n
             then Z.of_nat (String.length s) + 1 else n in
    genSplit_loop (Z.to_nat (n - 1)) s sep.

End strings.

(** ** Errors *)

(** The errors of encoding/json that the decoder reports. *)
Inductive json_error : Type :=
  | SyntaxError (msg : string)
  | UnmarshalTypeError (value : string) (type : string).

(** One constructor per error the client returns:
    - [InvalidStackName stack]: [fmt.Errorf("%q is not a valid stack name", stack)];
    - [InvalidScheme p]: [fmt.Errorf("unknown protocol scheme: %s", parts[0])];
    - [UnexpectedStatus code]: [fmt.Errorf("unexpected status code: %d", resp.StatusCode)];
    - [RequestError]: the error of [http.NewRequest];
    - [TransportError]: the error of [http.Client.Do];
    - [DecodeError]: the error of [json.Decoder.Decode]. *)
Inductive error : Type :=
  | InvalidStackName (stack : string)
  | InvalidScheme (scheme : string)
  | UnexpectedStatus (code : Z)
  | RequestError (msg : string)
  | TransportError (msg : string)
  | DecodeError (e : json_error).

(** What a call comes to: a value, an [error], or a run-time panic (a [nil]
    pointer dereferenced). *)
Inductive result (A : Type) : Type :=
  | Ok (a : A)
  | Err (e : error)
  | Panic.
Arguments Ok {A} a.
Arguments Err {A} e.
Arguments Panic {A}.

(** ** HTTP *)

Definition Header : Type := list (string * list string).

(** [http.Header.Set]: the key is stored in its canonical form and any
    earlier values under it are replaced. The client only ever sets
    [x-watson-stack], whose canonical form is [X-Watson-Stack]. *)
Definition Header_Set (h : Header) (canonical_key value : string) : Header :=
  (canonical_key, [value]) :: filter (λ kv, kv.1 ≠ canonical_key) h.

(** A request as the transport receives it: [Target] is the string given to
    [http.NewRequest], [URL_Scheme] and [URL_Host] the two fields of
    [req.URL] the client overwrites. *)
Record Request : Type := mkRequest {
  Method : string;
  Target : string;
  URL_Scheme : string;
  URL_Host : string;
  Req_Header : Header
}.

(** [StatusCode] and the bytes of the body. *)
Record Response : Type := mkResponse {
  StatusCode : Z;
  Body : string
}.

(** An [*http.Client]: [Do] answers a request, given the requests that went
    over the wire before it, with a transport error or a response. *)
Record HttpClient : Type := mkHttpClient {
  Do : list Request → Request → string + Response
}.

(** ** Configuration *)

Module Config.
Record t : Type := mk {
  Address : string;
  Scheme : string;
  Stack : string;
  HttpClient : option HttpClient
}.
End Config.

(** The process around the client: [os.Getenv] (the empty string for an
    unset variable) and the client [cleanhttp.DefaultPooledClient] makes. *)
Record Process : Type := mkProcess {
  Getenv : string → string;
  DefaultPooledClient : HttpClient
}.

Definition nonempty (s : string) : bool := negb (String.eqb s "").

Definition DefaultConfig (p : Process) : Config.t :=
  let config := Config.mk "" "https" "" (Some (DefaultPooledClient p)) in
  let config :=
    let addr := Getenv p "watson_ADDRESS" in
    if nonempty addr
    then Config.mk addr (Config.Scheme config) (Config.Stack config) (Config.HttpClient config)
    else config in
  let config :=
    let scheme := Getenv p "watson_SCHEME" in
    if nonempty scheme
    then Config.mk (Config.Address config) scheme (Config.Stack config) (Config.HttpClient config)
    else config in
  let config :=
    let stack := Getenv p "watson_STACK" in
    if nonempty stack
    then Config.mk (Config.Address config) (Config.Scheme config) stack (Config.HttpClient config)
    else config in
  config.

Record Client : Type := mkClient {
  config : Config.t;
  headers : Header
}.

(** Lines 47-59 of [NewClient]: the empty fields of [*config] are filled
    from [DefaultConfig()]. *)
Definition fillDefaults (p : Process) (config : Config.t) : Config.t :=
  let defConfig := DefaultConfig p in
  Config.mk
    (if String.eqb (Config.Address config) "" then Config.Address defConfig
     else Config.Address config)
    (if String.eqb (Config.Scheme config) "" then Config.Scheme defConfig
     else Config.Scheme config)
    (if String.eqb (Config.Stack config) "" then Config.Stack defConfig
     else Config.Stack config)
    (match Config.HttpClient config with
     | None => Config.HttpClient defConfig
     | Some h => Some h
     end).

(** Lines 74-77 of [NewClient]: the static headers. *)
Definition stackHeaders (config : Config.t) : Header :=
  let headers : Header := [] in
  if nonempty (Config.Stack config)
  then Header_Set headers "X-Watson-Stack" (Config.Stack config)
  else headers.

(** [NewClient(config)]: the first component is [*config] as the call
    leaves it, the second what the call returns. *)
Definition NewClient (p : Process) (config : Config.t)
  : Config.t * result Client :=
  let config := fillDefaults p config in
  let finish (config : Config.t) : Config.t * result Client :=
    (config, Ok (mkClient config (stackHeaders config))) in
  match strings.SplitN (Config.Address config) "://" 2 with
  | [part0; part1] =>
      if String.eqb part0 "http" then
        finish (Config.mk part1 "http" (Config.Stack config) (Config.HttpClient config))
      else if String.eqb part0 "https" then
        finish (Config.mk part1 "https" (Config.Stack config) (Config.HttpClient config))
      else (config, Err (InvalidScheme part0))
  | _ => finish config
  end.

(** ** Stack names *)

(** [validateStackName]: [None] is Go's [nil] error. *)
Definition validateStackName (stack : string) : option error :=
  if negb (Nat.eqb (strings.Count stack "/") 1)
  then Some (InvalidStackName stack)
  else None.

(** ** JSON values and Go's dynamically typed values *)

(** A JSON text as encoding/json's scanner reads it: numbers keep their
    literal, object members their order and their duplicates. *)
Inductive json : Type :=
  | JNull
  | JBool (b : bool)
  | JNumber (lit : string)
  | JString (s : string)
  | JArray (elems : list json)
  | JObject (members : list (string * json)).

(** What an [interface{}] holds after decoding: [nil], [bool], [float64]
    (kept as the literal it was read from), [string], [[]interface{}] or
    [map[string]interface{}]. *)
Inductive any : Type :=
  | GoNil
  | GoBool (b : bool)
  | GoFloat64 (lit : string)
  | GoString (s : string)
  | GoSlice (elems : list any)
  | GoMap (m : gmap string any).

(** [fmt]'s [%T] on such a value. *)
Definition TypeName (v : any) : string :=
  match v with
  | GoNil => "<nil>"
  | GoBool _ => "bool"
  | GoFloat64 _ => "float64"
  | GoString _ => "string"
  | GoSlice _ => "[]interface {}"
  | GoMap _ => "map[string]interface {}"
  end.

(** The [Value] field of encoding/json's [UnmarshalTypeError]. *)
Definition json_kind (j : json) : string :=
  match j with
  | JNull => "null"
  | JBool _ => "bool"
  | JNumber _ => "number"
  | JString _ => "string"
  | JArray _ => "array"
  | JObject _ => "object"
  end.

(** ** The values the client returns *)

(** [Output] as [client.go] declares it: three fields. *)
Record Output : Type := mkOutput {
  Value : any;
  Deprecated : string;
  Warning : string
}.

(** [Outputs], a [map[string]Output]; the [nil] map and the empty map are
    both [∅] (they read and range alike). *)
Abbreviation Outputs := (gmap string Output).

(** A [time.Time], as nanoseconds since the Unix epoch. *)
Record Time : Type := mkTime { UnixNano : Z }.

Module UsedBy.
Record t : Type := mk {
  Id : string;
  URL : string;
  LastUsedAt : Time
}.
End UsedBy.

Module Stack.
Record t : Type := mk {
  Id : string;
  Name : string;
  URL : string;
  UsedBy : list UsedBy.t
}.
End Stack.

(** ** The library boundary *)

(** What the client and the data source take from Go's libraries:
    - [Quote]: [strconv.Quote], which [fmt] applies for [%q];
    - [ParseFloat_ok lit]: whether [strconv.ParseFloat(lit, 64)] succeeds;
    - [NewRequest_error target]: the error of [http.NewRequest("GET",
      target, nil)], if the target does not parse as a URL;
    - [json_scan body]: the first JSON value of the body as
      [json.Decoder] reads it, or its syntax error;
    - [json_Error e]: the message of an encoding/json error;
    - [Decode_Stack body]: [json.NewDecoder(body).Decode(&s)] for
      [s Stack], whose [last_used_at] goes through [time.Time]'s own
      unmarshaller. *)
Class GoLib : Type := mkGoLib {
  Quote : string → string;
  ParseFloat_ok : string → bool;
  NewRequest_error : string → option string;
  json_scan : string → json_error + json;
  json_Error : json_error → string;
  Decode_Stack : string → json_error + Stack.t
}.

(** A map built in document order: a later duplicate of a key replaces the
    earlier one. *)
Definition map_of_members {A : Type} (l : list (string * A)) : gmap string A :=
  foldl (λ m kv, <[kv.1 := kv.2]> m) ∅ l.

Section Decode.
Context `{GoLib}.

(** Decoding into an [interface{}]: the value, and the errors the decoder
    saves on the way, in document order. *)
Fixpoint valueInterface (j : json) : any * list json_error :=
  match j with
  | JNull => (GoNil, [])
  | JBool b => (GoBool b, [])
  | JNumber lit =>
      if ParseFloat_ok lit then (GoFloat64 lit, [])
      else (GoNil, [UnmarshalTypeError ("number " +:+ lit) "float64"])
  | JString s => (GoString s, [])
  | JArray elems =>
      let rs := map valueInterface elems in
      (GoSlice (map fst rs), concat (map snd rs))
  | JObject members =>
      let rs := map (λ kv, match kv with
                            | (k, v) => let r := valueInterface v in ((k, r.1), r.2)
                            end) members in
      (GoMap (map_of_members (map fst rs)), concat (map snd rs))
  end.

(** Whether [strconv.ParseFloat] takes every number of a JSON value, which
    is when [valueInterface] saves no error on it. *)
Fixpoint numbers_fit (j : json) : bool :=
  match j with
  | JNumber lit => ParseFloat_ok lit
  | JArray elems => forallb numbers_fit elems
  | JObject members =>
      forallb (λ kv, match kv with (_, v) => numbers_fit v end) members
  | _ => true
  end.

(** How encoding/json folds a member name before comparing it with a
    field name: ASCII letters to upper case, and the two code points
    outside ASCII that fold into it, U+017F (to [S]) and U+212A (to
    [K]), given here by their UTF-8 bytes. *)
Definition upper (c : ascii) : ascii :=
  let n := nat_of_ascii c in
  if (97 <=? n)%nat && (n <=? 122)%nat then ascii_of_nat (n - 32) else c.

Fixpoint foldName (s : string) : string :=
  match s with
  | EmptyString => EmptyString
  | String "197" (String "191" s') => String "S" (foldName s')
  | String "226" (String "132" (String "170" s')) => String "K" (foldName s')
  | String c s' => String (upper c) (foldName s')
  end.

(** The field a member name selects: the one with that very name, else
    the first whose name is the same after folding. *)
Definition field_of (fields : list string) (key : string) : option string :=
  match List.find (String.eqb key) fields with
  | Some f => Some f
  | None => List.find (λ f, String.eqb (foldName key) (foldName f)) fields
  end.

(** Storing a JSON value into a field of type [string]: [null] leaves
    the field as it is, anything but a string is a type error. *)
Definition store_string (old : string) (j : json) : string * list json_error :=
  match j with
  | JString s => (s, [])
  | JNull => (old, [])
  | _ => (old, [UnmarshalTypeError (json_kind j) "string"])
  end.

(** One member of a JSON object stored into an [Output]; a name that
    selects no field is passed over. *)
Definition store_Output_member (o : Output) (kv : string * json)
  : Output * list json_error :=
  match field_of ["Value"; "Deprecated"; "Warning"] kv.1 with
  | Some "Value" =>
      let r := valueInterface kv.2 in
      (mkOutput r.1 (Deprecated o) (Warning o), r.2)
  | Some "Deprecated" =>
      let r := store_string (Deprecated o) kv.2 in
      (mkOutput (Value o) r.1 (Warning o), r.2)
  | Some "Warning" =>
      let r := store_string (Warning o) kv.2 in
      (mkOutput (Value o) (Deprecated o) r.1, r.2)
  | _ => (o, [])
  end.

(** A JSON value stored into a zero [Output]. *)
Definition unmarshal_Output (j : json) : Output * list json_error :=
  let zero := mkOutput GoNil "" "" in
  match j with
  | JObject members =>
      foldl (λ acc kv,
               let r := store_Output_member acc.1 kv in (r.1, (acc.2 ++ r.2)%list))
            (zero, []) members
  | JNull => (zero, [])
  | _ => (zero, [UnmarshalTypeError (json_kind j) "client.Output"])
  end.

(** A JSON value stored into a [nil] [Outputs]. *)
Definition unmarshal_Outputs (j : json) : Outputs * list json_error :=
  match j with
  | JObject members =>
      let rs := map (λ kv, let r := unmarshal_Output kv.2 in ((kv.1, r.1), r.2))
                    members in
      (map_of_members (map fst rs), concat (map snd rs))
  | JNull => (∅, [])
  | _ => (∅, [UnmarshalTypeError (json_kind j) "client.Outputs"])
  end.

(** [json.NewDecoder(body).Decode(&outputs)]: a syntax error, else the
    first error saved while storing, else the map. *)
Definition Decode_Outputs (body : string) : json_error + Outputs :=
  match json_scan body with
  | inl e => inl e
  | inr j =>
      let r := unmarshal_Outputs j in
      match r.2 with
      | e :: _ => inl e
      | [] => inr r.1
      end
  end.
End Decode.

(** ** The client's calls *)

(** A call runs against the wire: the requests handed to the transport so
    far go in, and come out with those the call added. *)
Definition M (A : Type) : Type := list Request → result A * list Request.

Definition fail {A : Type} (e : error) : M A := λ wire, (Err e, wire).
Definition panic {A : Type} : M A := λ wire, (Panic, wire).

#[global] Instance M_ret : MRet M := λ A a wire, (Ok a, wire).
#[global] Instance M_bind : MBind M := λ A B k m wire,
  match m wire with
  | (Ok a, wire') => k a wire'
  | (Err e, wire') => (Err e, wire')
  | (Panic, wire') => (Panic, wire')
  end.

(** [HttpClient.Do(req)]: the request goes over the wire. *)
Definition send (h : HttpClient) (req : Request) : M Response :=
  λ wire,
    (match Do h wire req with
     | inl msg => Err (TransportError msg)
     | inr resp => Ok resp
     end, (wire ++ [req])%list).

(** The request [doRequest] hands to the transport: a GET of [path], with
    the scheme, host and headers of the client. *)
Definition request (c : Client) (path : string) : Request :=
  mkRequest "GET" path (Config.Scheme (config c)) (Config.Address (config c))
    (headers c).

Section ClientCalls.
Context `{GoLib}.

(** [c.doRequest(path)], for a receiver [c] that may be [nil]:
    [http.NewRequest] comes first, then the fields of [c] are read. *)
Definition doRequest (c : option Client) (path : string) : M Response :=
  match NewRequest_error path with
  | Some msg => fail (RequestError msg)
  | None =>
      match c with
      | None => panic
      | Some c =>
          let req := request c path in
          match Config.HttpClient (config c) with
          | None => panic
          | Some h => send h req
          end
      end
  end.

(** [c.GetOutputs(stack)]; [Ok None] is the [(nil, nil)] of a 404. The
    deferred [closeResponseBody] drains and closes the body, which has
    no bearing on what is returned. *)
Definition GetOutputs (c : option Client) (stack : string) : M (option Outputs) :=
  match validateStackName stack with
  | Some err => fail err
  | None =>
      resp ← doRequest c ("/v1/projects/" +:+ stack +:+ "/outputs/");
      if StatusCode resp =? 200 then
        match Decode_Outputs (Body resp) with
        | inl e => fail (DecodeError e)
        | inr outputs => mret (Some outputs)
        end
      else if StatusCode resp =? 404 then mret None
      else fail (UnexpectedStatus (StatusCode resp))
  end.

(** [c.GetStack(stack)]. *)
Definition GetStack (c : option Client) (stack : string) : M (option Stack.t) :=
  match validateStackName stack with
  | Some err => fail err
  | None =>
      resp ← doRequest c ("/v1/projects/" +:+ stack +:+ "/");
      if StatusCode resp =? 200 then
        match Decode_Stack (Body resp) with
        | inl e => fail (DecodeError e)
        | inr s => mret (Some s)
        end
      else if StatusCode resp =? 404 then mret None
      else fail (UnexpectedStatus (StatusCode resp))
  end.
End ClientCalls.

(** ** The data source *)

(** [err.Error()]. *)
Definition Error `{GoLib} (err : error) : string :=
  match err with
  | InvalidStackName stack => Quote stack +:+ " is not a valid stack name"
  | InvalidScheme scheme => "unknown protocol scheme: " +:+ scheme
  | UnexpectedStatus code => "unexpected status code: " +:+ pretty code
  | RequestError msg => msg
  | TransportError msg => msg
  | DecodeError e => json_Error e
  end.

Inductive Severity : Type := SeverityError | SeverityWarning.

Record Diagnostic : Type := mkDiagnostic {
  severity : Severity;
  Summary : string;
  Detail : string
}.

#[global] Instance Severity_eq_dec : EqDecision Severity.
Proof. solve_decision. Defined.
#[global] Instance Diagnostic_eq_dec : EqDecision Diagnostic.
Proof. solve_decision. Defined.

Abbreviation Diagnostics := (list Diagnostic).

(** [diags.Append(in...)]: a diagnostic equal to one already there is not
    added again. *)
Definition Append (diags more : Diagnostics) : Diagnostics :=
  foldl (λ acc d, if decide (d ∈ acc) then acc else (acc ++ [d])%list) diags more.

Definition AddError (diags : Diagnostics) (summary detail : string) : Diagnostics :=
  Append diags [mkDiagnostic SeverityError summary detail].

Definition AddWarning (diags : Diagnostics) (summary detail : string) : Diagnostics :=
  Append diags [mkDiagnostic SeverityWarning summary detail].

Definition HasError (diags : Diagnostics) : bool :=
  existsb (λ d, bool_decide (severity d = SeverityError)) diags.

(** The framework's [attr.Value]s the data source handles. The attribute
    types handed to [ObjectValueMust] and [MapValueMust] are the four of
    the schema and agree with the values built here, so neither panics;
    the types are not carried. *)
Inductive attr_Value : Type :=
  | StringNull
  | StringUnknown
  | StringValue (s : string)
  | BoolValue (b : bool)
  | ObjectValue (attrs : gmap string attr_Value)
  | MapNull
  | MapValue (elems : gmap string attr_Value).

(** [types.String.ValueString()]: the empty string for null and unknown. *)
Definition ValueString (v : attr_Value) : string :=
  match v with
  | StringValue s => s
  | _ => ""
  end.

Module OutputsDataSourceModel.
Record t : Type := mk {
  Id : attr_Value;
  Stack : attr_Value;
  Outputs : attr_Value
}.
End OutputsDataSourceModel.

Record OutputsDataSource : Type := mkOutputsDataSource {
  client : option Client
}.

(** [Config_Get] is what [req.Config.Get(ctx, &data)] reports and what it
    leaves in [data]. *)
Record ReadRequest : Type := mkReadRequest {
  Config_Get : Diagnostics * OutputsDataSourceModel.t
}.

(** [State] is the model last stored by [resp.State.Set]. *)
Record ReadResponse : Type := mkReadResponse {
  Diags : Diagnostics;
  State : option OutputsDataSourceModel.t
}.

Section DataSource.
Context `{GoLib}.

(** [Read] reads [v.Sensitive], a field the [Output] of [client.go] does
    not declare; what it yields is taken as given. *)
Variable Sensitive : Output → bool.

(** The order in which [range] goes through a map. *)
Variable range : Outputs → list (string * Output).

(** The diagnostics of [resp.State.Set(ctx, &data)]; the state is
    replaced unless they hold an error. *)
Variable State_Set : OutputsDataSourceModel.t → Diagnostics.

(** The object of lines 121-134, for an output [v] whose value is the
    string [value]. *)
Definition output_object (v : Output) (value : string) : attr_Value :=
  ObjectValue
    (<["value" := StringValue value]>
       (<["deprecated" := StringValue (Deprecated v)]>
          (<["warning" := StringValue (Warning v)]>
             (<["sensitive" := BoolValue (Sensitive v)]> ∅)))).

(** The body of the [for k, v := range *outputs] loop, lines 119-146. *)
Definition Read_output (acc : gmap string attr_Value * Diagnostics)
    (kv : string * Output) : gmap string attr_Value * Diagnostics :=
  let k := kv.1 in
  let v := kv.2 in
  let acc :=
    match Value v with
    | GoString value => (<[k := output_object v value]> acc.1, acc.2)
    | value =>
        (acc.1,
         AddWarning acc.2 "ignored output"
           ("output " +:+ Quote k +:+ " has type " +:+ TypeName value
            +:+ " and is ignored for now"))
    end in
  let acc :=
    if nonempty (Deprecated v)
    then (acc.1, AddWarning acc.2 ("Output " +:+ k +:+ " is deprecated") (Deprecated v))
    else acc in
  let acc :=
    if nonempty (Deprecated v)
    then (acc.1, AddWarning acc.2 ("The output " +:+ k +:+ " has a warning") (Warning v))
    else acc in
  acc.

(** [d.Read(ctx, req, resp)]: [resp] as the call leaves it. *)
Definition Read (d : OutputsDataSource) (req : ReadRequest) (resp : ReadResponse)
  : M ReadResponse :=
  let data := (Config_Get req).2 in
  let diags := Append (Diags resp) (Config_Get req).1 in
  if HasError diags then mret (mkReadResponse diags (State resp))
  else
    let stack := ValueString (OutputsDataSourceModel.Stack data) in
    let data := OutputsDataSourceModel.mk (StringValue stack)
                  (OutputsDataSourceModel.Stack data)
                  (OutputsDataSourceModel.Outputs data) in
    λ wire,
      match GetOutputs (client d) stack wire with
      | (Panic, wire') => (Panic, wire')
      | (Err err, wire') =>
          (Ok (mkReadResponse
                 (AddError diags ("Failed to read outputs of " +:+ Quote "stack")
                    (Error err))
                 (State resp)), wire')
      | (Ok None, wire') =>
          (Ok (mkReadResponse
                 (AddError diags "Unknown stack"
                    ("No stack named " +:+ Quote stack +:+ " could be found"))
                 (State resp)), wire')
      | (Ok (Some outputs), wire') =>
          let r := foldl Read_output (∅, diags) (range outputs) in
          let data := OutputsDataSourceModel.mk (OutputsDataSourceModel.Id data)
                        (OutputsDataSourceModel.Stack data)
                        (MapValue r.1) in
          let set := State_Set data in
          (Ok (mkReadResponse (Append r.2 set)
                 (if HasError set then State resp else Some data)), wire')
      end.
End DataSource.

(** The warning of line 137 for the output [k], [v]. *)
Definition ignored `{GoLib} (k : string) (v : Output) : Diagnostic :=
  mkDiagnostic SeverityWarning "ignored output"
    ("output " +:+ Quote k +:+ " has type " +:+ TypeName (Value v)
     +:+ " and is ignored for now").

(** ** The specification's words, for comparison with the code *)

(** [s] holds no [/]. *)
Definition no_slash (s : string) : Prop := ∀ a b, s ≠ a +:+ "/" +:+ b.

(** The StackIdentifier shape as the specification words it:
    [<namespace>/<name>], both halves non-empty and free of [/]. *)
Definition StackIdentifier (s : string) : Prop :=
  ∃ ns name, s = ns +:+ "/" +:+ name ∧ ns ≠ "" ∧ name ≠ "" ∧ no_slash ns ∧ no_slash name.

(** [s] holds an instance of [sep]. *)
Definition contains (s sep : string) : Prop := ∃ a b, s = a +:+ sep +:+ b.

(** Steps 1 and 2 of the specification's resolution: the explicit value
    where one is given, else the environment's, else the baseline. *)
Definition layered_address (p : Process) (cfg : Config.t) : string :=
  if String.eqb (Config.Address cfg) "" then Getenv p "watson_ADDRESS"
  else Config.Address cfg.

Definition layered_scheme (p : Process) (cfg : Config.t) : string :=
  if String.eqb (Config.Scheme cfg) "" then
    if String.eqb (Getenv p "watson_SCHEME") "" then "https"
    else Getenv p "watson_SCHEME"
  else Config.Scheme cfg.

Definition layered_stack (p : Process) (cfg : Config.t) : string :=
  if String.eqb (Config.Stack cfg) "" then Getenv p "watson_STACK"
  else Config.Stack cfg.

(** ** Concrete surroundings, to run the model on *)

(** A transport that answers every request with the given status and body. *)
Definition always (code : Z) (body : string) : HttpClient :=
  mkHttpClient (λ _ _, inr (mkResponse code body)).

(** A process whose environment holds the given three variables. *)
Definition process_with (address scheme stack : string) : Process :=
  mkProcess
    (λ name,
       if String.eqb name "watson_ADDRESS" then address
       else if String.eqb name "watson_SCHEME" then scheme
       else if String.eqb name "watson_STACK" then stack
       else "")
    (always 404 "").

(** Double quotes written as single ones, for JSON texts. *)
Definition dquote (s : string) : string :=
  string_of_list_ascii
    (map (λ c : ascii, if Ascii.eqb c "'" then "034"%char else c)
       (list_ascii_of_string s)).

(** A body of two outputs, one a string and one a number, and the value
    the scanner reads from it. *)
Definition sample_body : string :=
  dquote "{'hostname': {'value': 'https://hello.example', 'sensitive': false}, 'count': {'value': 3}}".

Definition sample_json : json :=
  JObject [("hostname", JObject [("value", JString "https://hello.example");
                                 ("sensitive", JBool false)]);
           ("count", JObject [("value", JNumber "3")])].

(** A library for running the model: [Quote] as it is on printable ASCII
    without quotes or backslashes, every number in range, every target
    accepted, and a scanner that knows [sample_body]. *)
Definition sampleLib : GoLib :=
  mkGoLib
    (λ s, dquote "'" +:+ s +:+ dquote "'")
    (λ _, true)
    (λ _, None)
    (λ body, if String.eqb body sample_body then inr sample_json
             else inl (SyntaxError "invalid character"))
    (λ e, match e with
          | SyntaxError msg => msg
          | UnmarshalTypeError value type =>
              "json: cannot unmarshal " +:+ value +:+ " into Go value of type " +:+ type
          end)
    (λ _, inl (SyntaxError "invalid character")).


(** A client of [watson.example] over the given transport. *)
Definition sample_client (h : HttpClient) : Client :=
  mkClient (Config.mk "watson.example" "https" "frontend/dev" (Some h))
    [("X-Watson-Stack", ["frontend/dev"])].

(** A transport on which every exchange fails. *)
Definition unreachable : HttpClient :=
  mkHttpClient (λ _ _, inl "connection refused").

(** [sampleLib] with a [http.NewRequest] that refuses a target holding the
    malformed escape [%zz]. *)
Definition strictLib : GoLib :=
  mkGoLib
    (@Quote sampleLib)
    (@ParseFloat_ok sampleLib)
    (λ target, match strings.Index target "%zz" with
               | Some _ => Some "invalid URL escape"
               | None => None
               end)
    (@json_scan sampleLib)
    (@json_Error sampleLib)
    (@Decode_Stack sampleLib).

(** [sampleLib] with a scanner that reads the bodies of a table. *)
Definition scanLib (table : list (string * json)) : GoLib :=
  mkGoLib
    (@Quote sampleLib)
    (@ParseFloat_ok sampleLib)
    (@NewRequest_error sampleLib)
    (λ body, match List.find (λ entry, String.eqb body entry.1) table with
             | Some entry => inr entry.2
             | None => inl (SyntaxError "invalid character")
             end)
    (@json_Error sampleLib)
    (@Decode_Stack sampleLib).

(** [scanLib] with a [strconv.ParseFloat] that fails on [1e999], a number
    beyond the range of [float64]. *)
Definition rangeLib (table : list (string * json)) : GoLib :=
  mkGoLib
    (@Quote sampleLib)
    (λ lit, negb (String.eqb lit "1e999"))
    (@NewRequest_error sampleLib)
    (@json_scan (scanLib table))
    (@json_Error sampleLib)
    (@Decode_Stack sampleLib).

(** ** What one output adds to the response of [Read] *)

(** The diagnostics of lines 136-146 for the output [k], [v], in the order
    the loop body adds them. *)
Definition notices `{GoLib} (k : string) (v : Output) : Diagnostics :=
  (match Value v with
   | GoString _ => []
   | _ => [ignored k v]
   end
   ++ if nonempty (Deprecated v)
      then [mkDiagnostic SeverityWarning ("Output " +:+ k +:+ " is deprecated")
              (Deprecated v);
            mkDiagnostic SeverityWarning ("The output " +:+ k +:+ " has a warning")
              (Warning v)]
      else [])%list.

(** The object of lines 121-134 for an output whose value is a string, and
    nothing for any other. *)
Definition string_output (Sensitive : Output → bool) (v : Output)
  : option attr_Value :=
  match Value v with
  | GoString value => Some (output_object Sensitive v value)
  | _ => None
  end.

(** ** The provider and the configuration of the data source *)

(** A diagnostic as the provider's [Configure] adds it: with the attribute
    it is about for [AddAttributeError] ([path.Root] of a name), without one
    for [AddError]. *)
Record AttributeDiagnostic : Type := mkAttributeDiagnostic {
  Path : option string;
  Plain : Diagnostic
}.

#[global] Instance AttributeDiagnostic_eq_dec : EqDecision AttributeDiagnostic.
Proof. solve_decision. Defined.

Abbreviation AttributeDiagnostics := (list AttributeDiagnostic).

(** [diags.Append(in...)] on such diagnostics. *)
Definition Append_at (diags more : AttributeDiagnostics) : AttributeDiagnostics :=
  foldl (λ acc d, if decide (d ∈ acc) then acc else (acc ++ [d])%list) diags more.

Definition AddAttributeError (diags : AttributeDiagnostics)
    (path summary detail : string) : AttributeDiagnostics :=
  Append_at diags
    [mkAttributeDiagnostic (Some path) (mkDiagnostic SeverityError summary detail)].

Definition AddError_at (diags : AttributeDiagnostics) (summary detail : string)
  : AttributeDiagnostics :=
  Append_at diags
    [mkAttributeDiagnostic None (mkDiagnostic SeverityError summary detail)].

Definition HasError_at (diags : AttributeDiagnostics) : bool :=
  existsb (λ d, bool_decide (severity (Plain d) = SeverityError)) diags.

(** [IsUnknown()] and [IsNull()] of a framework value. *)
Definition IsUnknown (v : attr_Value) : bool :=
  match v with
  | StringUnknown => true
  | _ => false
  end.

Definition IsNull (v : attr_Value) : bool :=
  match v with
  | StringNull | MapNull => true
  | _ => false
  end.

Module watsonProviderModel.
Record t : Type := mk {
  Address : attr_Value;
  Scheme : attr_Value;
  Stack : attr_Value
}.
End watsonProviderModel.

(** [Provider_Config_Get] is what [req.Config.Get(ctx, &config)] reports
    and what it leaves in [config]. *)
Record ProviderRequest : Type := mkProviderRequest {
  Provider_Config_Get : AttributeDiagnostics * watsonProviderModel.t
}.

(** [DataSourceData] and [ResourceData] hold the client, or nothing. *)
Record ProviderResponse : Type := mkProviderResponse {
  Provider_Diags : AttributeDiagnostics;
  DataSourceData : option Client;
  ResourceData : option Client
}.

(** The three values [Configure] settles on: the attribute when it is not
    null, else the environment variable. *)
Definition configured (p : Process) (variable : string) (attribute : attr_Value)
  : string :=
  if negb (IsNull attribute) then ValueString attribute else Getenv p variable.

(** The details of the five attribute errors of [Configure]. *)
Definition unknown_address_detail : string :=
  "The provider cannot create the watson API client as there is an unknown configuration value for the watson API host. "
  +:+ "Either target apply the source of the value first, set the value statically in the configuration, or use the watson_ADDRESS environment variable.".

Definition unknown_stack_detail : string :=
  "The provider cannot create the watson API client as there is an unknown configuration value for the watson API stack. "
  +:+ "Either target apply the source of the value first, set the value statically in the configuration, or use the watson_STACK environment variable.".

Definition unknown_scheme_detail : string :=
  "The provider cannot create the watson API client as there is an unknown configuration value for the watson API scheme. "
  +:+ "Either target apply the source of the value first, set the value statically in the configuration, or use the watson_SCHEME environment variable.".

Definition missing_address_detail : string :=
  "The provider cannot create the watson API client as there is a missing or empty value for the watson API address. "
  +:+ "Set the address value in the configuration or use the watson_ADDRESS environment variable. "
  +:+ "If either is already set, ensure the value is not empty.".

Definition missing_stack_detail : string :=
  "The provider cannot create the watson API client as there is a missing or empty value for the watson API stack. "
  +:+ "Set the stack value in the configuration or use the watson_STACK environment variable. "
  +:+ "If either is already set, ensure the value is not empty.".

Section Provider.
Context `{GoLib}.

(** [p.Configure(ctx, req, resp)] of [provider.go]: [resp] as the call
    leaves it. Its [client] package is the one of [client.go]. *)
Definition watsonProvider_Configure (p : Process) (req : ProviderRequest)
    (resp : ProviderResponse) : result ProviderResponse :=
  let config := (Provider_Config_Get req).2 in
  let stop (diags : AttributeDiagnostics) : result ProviderResponse :=
    Ok (mkProviderResponse diags (DataSourceData resp) (ResourceData resp)) in
  let diags := Append_at (Provider_Diags resp) (Provider_Config_Get req).1 in
  if HasError_at diags then stop diags
  else
    let diags :=
      if IsUnknown (watsonProviderModel.Address config)
      then AddAttributeError diags "address" "Unknown watson API Host"
             unknown_address_detail
      else diags in
    let diags :=
      if IsUnknown (watsonProviderModel.Stack config)
      then AddAttributeError diags "stack" "Unknown watson API stack"
             unknown_stack_detail
      else diags in
    let diags :=
      if IsUnknown (watsonProviderModel.Scheme config)
      then AddAttributeError diags "scheme" "Unknown watson API stack"
             unknown_scheme_detail
      else diags in
    if HasError_at diags then stop diags
    else
      let address := configured p "watson_ADDRESS" (watsonProviderModel.Address config) in
      let stack := configured p "watson_STACK" (watsonProviderModel.Stack config) in
      let scheme := configured p "watson_SCHEME" (watsonProviderModel.Scheme config) in
      let diags :=
        if String.eqb address ""
        then AddAttributeError diags "address" "Missing watson API Address"
               missing_address_detail
        else diags in
      let diags :=
        if String.eqb stack ""
        then AddAttributeError diags "stack" "Missing watson API stack"
               missing_stack_detail
        else diags in
      if HasError_at diags then stop diags
      else
        let conf := DefaultConfig p in
        let conf :=
          if nonempty address
          then Config.mk address (Config.Scheme conf) (Config.Stack conf)
                 (Config.HttpClient conf)
          else conf in
        let conf :=
          if nonempty scheme
          then Config.mk (Config.Address conf) scheme (Config.Stack conf)
                 (Config.HttpClient conf)
          else conf in
        let conf :=
          if nonempty stack
          then Config.mk (Config.Address conf) (Config.Scheme conf) stack
                 (Config.HttpClient conf)
          else conf in
        match (NewClient p conf).2 with
        | Err err =>
            stop (AddError_at diags "Failed to create watson API client" (Error err))
        | Ok client => Ok (mkProviderResponse diags (Some client) (Some client))
        | Panic => Panic
        end.

End Provider.

(** [req.ProviderData] of the data source's [Configure]: [nil], a
    [*client.Client] (which may be a [nil] pointer), or a value of another
    type, of which only the name [%T] prints is kept. *)
Inductive ProviderData : Type :=
  | NoProviderData
  | ClientData (c : option Client)
  | OtherData (type_name : string).

(** [d.Configure(ctx, req, resp)] of the data source: [d] and the
    diagnostics of [resp] as the call leaves them. *)
Definition OutputsDataSource_Configure (d : OutputsDataSource)
    (data : ProviderData) (diags : Diagnostics) : OutputsDataSource * Diagnostics :=
  match data with
  | NoProviderData => (d, diags)
  | ClientData c => (mkOutputsDataSource c, diags)
  | OtherData type_name =>
      (d, AddError diags "Unexpected Data Source Configure Type"
            ("Expected *http.Client, got: " +:+ type_name
             +:+ ". Please report this issue to the provider developers."))
  end.

(** * Properties *)

(** ** Strings *)

(** Appending to a string whose head is known. *)
Ltac push_append :=
  repeat match goal with
    | |- context [String.append EmptyString ?x] =>
        change (String.append EmptyString x) with x
    | |- context [String.append (String ?c ?a) ?x] =>
        change (String.append (String c a) x) with (String c (String.append a x))
    | H : context [String.append EmptyString ?x] |- _ =>
        change (String.append EmptyString x) with x in H
    | H : context [String.append (String ?c ?a) ?x] |- _ =>
        change (String.append (String c a) x) with (String c (String.append a x)) in H
    end.

Section StringFacts.

Lemma HasPrefix_slash c s :
  strings.HasPrefix (String c s) "/" = Ascii.eqb c "/".
Proof.
  unfold strings.HasPrefix.
  change (String.prefix "/" (String c s))
    with (if ascii_dec "/" c then String.prefix "" s else false).
  destruct (ascii_dec "/" c) as [<-|Hne].
  - by destruct s.
  - symmetry. apply Ascii.eqb_neq. congruence.
Qed.

Lemma Count_slash_cons c s :
  strings.Count (String c s) "/"
  = ((if Ascii.eqb c "/" then 1 else 0) + strings.Count s "/")%nat.
Proof.
  unfold strings.Count. cbn [strings.Count_from].
  rewrite HasPrefix_slash. by destruct (Ascii.eqb c "/").
Qed.

Lemma Count_slash_app a b :
  strings.Count (a +:+ b) "/"
  = (strings.Count a "/" + strings.Count b "/")%nat.
Proof.
  induction a as [|c a IH]; [done|].
  change (String c a +:+ b) with (String c (a +:+ b)).
  rewrite !Count_slash_cons, IH. lia.
Qed.

Lemma Count_slash_zero s : strings.Count s "/" = 0%nat ↔ no_slash s.
Proof.
  split.
  - intros Hz a b ->. rewrite !Count_slash_app, Count_slash_cons in Hz.
    simpl in Hz. lia.
  - induction s as [|c s IH]; [done|]. intros Hns.
    rewrite Count_slash_cons.
    destruct (Ascii.eqb_spec c "/") as [->|Hc].
    + exfalso. by apply (Hns "" s).
    + rewrite IH; [done|]. intros a b ->. by apply (Hns (String c a) b).
Qed.

Lemma Count_slash_one s :
  strings.Count s "/" = 1%nat ↔
  ∃ ns name, s = ns +:+ "/" +:+ name ∧ no_slash ns ∧ no_slash name.
Proof.
  split.
  - induction s as [|c s IH]; [done|].
    rewrite Count_slash_cons.
    destruct (Ascii.eqb_spec c "/") as [->|Hc]; intros Hn.
    + exists "", s. split; [done|]. split.
      * intros a b Hab. by destruct a.
      * apply Count_slash_zero. lia.
    + destruct IH as (ns & name & -> & Hns & Hname); [lia|].
      exists (String c ns), name. split; [done|]. split; [|done].
      apply Count_slash_zero. rewrite Count_slash_cons.
      apply Count_slash_zero in Hns. rewrite Hns.
      destruct (Ascii.eqb_spec c "/"); [done|lia].
  - intros (ns & name & -> & Hns & Hname).
    apply Count_slash_zero in Hns, Hname.
    rewrite !Count_slash_app, Count_slash_cons, Hns, Hname. done.
Qed.

End StringFacts.

(** ** Stack names *)

(** C1, as the code has it: validation succeeds exactly on the strings with
    one [/], whatever lies on either side of it (an empty half passes);
    every StackIdentifier of the specification passes; and a string that
    does not pass is answered with [InvalidStackName] carrying that very
    string. *)
Theorem validateStackName_exactly_one_separator (stack : string) :
  (validateStackName stack = None ↔
     ∃ ns name, stack = ns +:+ "/" +:+ name ∧ no_slash ns ∧ no_slash name)
  ∧ (StackIdentifier stack → validateStackName stack = None)
  ∧ (validateStackName stack = None
     ∨ validateStackName stack = Some (InvalidStackName stack)).
Proof.
  assert (Hiff : validateStackName stack = None ↔ strings.Count stack "/" = 1%nat).
  { unfold validateStackName.
    destruct (Nat.eqb_spec (strings.Count stack "/") 1); simpl; split; congruence. }
  split; [|split].
  - rewrite Hiff. apply Count_slash_one.
  - intros (ns & name & -> & _ & _ & Hns & Hname).
    apply Hiff, Count_slash_one. eauto.
  - unfold validateStackName. destruct (negb _); auto.
Qed.

(** C1, the claim as worded fails: ["a/"] has an empty name half and is
    not a StackIdentifier, yet it passes validation. *)
Lemma validateStackName_accepts_empty_half :
  validateStackName "a/" = None ∧ ¬ StackIdentifier "a/".
Proof.
  split; [reflexivity|].
  intros (ns & name & Heq & Hns & Hname & _ & _).
  destruct ns as [|c ns]; [done|].
  destruct ns as [|c' ns]; simpl in Heq.
  - injection Heq as _ Hn. by destruct name.
  - injection Heq as _ _ Hn. by destruct ns.
Qed.

(** ** Splitting the address *)

Section SplitFacts.

Lemma prefix_app sep b : String.prefix sep (sep +:+ b) = true.
Proof.
  induction sep as [|c sep IH]; simpl; [by destruct b|].
  destruct (ascii_dec c c); [done|congruence].
Qed.

Lemma prefix_true sep s : String.prefix sep s = true → ∃ b, s = sep +:+ b.
Proof.
  revert s. induction sep as [|c sep IH]; intros s Hp; [by exists s|].
  destruct s as [|c' s]; [done|]. cbn [String.prefix] in Hp.
  destruct (ascii_dec c c') as [<-|]; [|done].
  destruct (IH s Hp) as [b ->]. by exists b.
Qed.

Lemma Index_None s sep : strings.Index s sep = None ↔ ¬ contains s sep.
Proof.
  induction s as [|c s IH].
  - cbn [strings.Index]. unfold strings.HasPrefix.
    destruct (String.prefix sep "") eqn:Hp.
    + split; [done|]. intros Hc. exfalso. apply Hc.
      destruct (prefix_true _ _ Hp) as [b ->]. by exists "", b.
    + split; [|done]. intros _ (a & b & Hab).
      destruct a; [|done]. push_append.
      pose proof (prefix_app sep b) as Hq. rewrite <- Hab in Hq. congruence.
  - cbn [strings.Index]. unfold strings.HasPrefix.
    destruct (String.prefix sep (String c s)) eqn:Hp.
    + split; [done|]. intros Hc. exfalso. apply Hc.
      destruct (prefix_true _ _ Hp) as [b ->]. by exists "", b.
    + destruct (strings.Index s sep) as [m|]; simpl.
      * split; [done|]. intros Hc. exfalso.
        destruct IH as [_ IH].
        assert (Hs : ¬ contains s sep); [|by specialize (IH Hs)].
        intros (a & b & ->). apply Hc. by exists (String c a), b.
      * split; [|done]. intros _ (a & b & Hab).
        destruct a as [|c' a].
        -- push_append.
           pose proof (prefix_app sep b) as Hq. rewrite <- Hab in Hq. congruence.
        -- push_append. injection Hab as _ ->. destruct IH as [IH _]. apply IH; [done|].
           by exists a, b.
Qed.

Lemma Index_prefix s sep :
  String.prefix sep s = true → strings.Index s sep = Some 0%nat.
Proof.
  intros Hp. destruct s; cbn [strings.Index]; unfold strings.HasPrefix;
    by rewrite Hp.
Qed.

Lemma keep_app pre x : strings.keep (String.length pre) (pre +:+ x) = pre.
Proof.
  induction pre as [|c pre IH]; push_append; simpl; [by destruct x|by rewrite IH].
Qed.

Lemma skip_app pre n x :
  strings.skip (String.length pre + n) (pre +:+ x) = strings.skip n x.
Proof. induction pre as [|c pre IH]; push_append; simpl; done. Qed.

(** ["://"] does not overlap itself: ahead of its first instance there is
    no other way to match it. *)
Lemma Index_scheme_sep pre rest :
  ¬ contains pre "://" →
  strings.Index (pre +:+ "://" +:+ rest) "://" = Some (String.length pre).
Proof.
  induction pre as [|c pre IH]; intros Hno.
  - apply Index_prefix. exact (prefix_app "://" rest).
  - change (String c pre +:+ "://" +:+ rest)
      with (String c (pre +:+ "://" +:+ rest)).
    cbn [strings.Index String.length]. unfold strings.HasPrefix.
    destruct (String.prefix "://" (String c (pre +:+ "://" +:+ rest))) eqn:Hp.
    + exfalso. destruct (prefix_true _ _ Hp) as [b Hb]. push_append.
      injection Hb as -> Hb.
      destruct pre as [|c2 pre]; push_append; [done|]. injection Hb as -> Hb.
      destruct pre as [|c3 pre]; push_append; [done|]. injection Hb as -> Hb.
      apply Hno. by exists "", pre.
    + rewrite IH; [done|].
      intros (a & b & ->). apply Hno. by exists (String c a), b.
Qed.

(** [strings.SplitN(s, "://", 2)] either leaves [s] whole or cuts it at
    the first ["://"]. *)
Lemma SplitN_scheme_sep s :
  strings.SplitN s "://" 2 =
  match strings.Index s "://" with
  | None => [s]
  | Some m => [strings.keep m s; strings.skip (m + 3) s]
  end.
Proof.
  unfold strings.SplitN. cbn [Z.eqb Z.ltb Z.compare].
  destruct s as [|c s]; [reflexivity|].
  replace (Z.of_nat (String.length (String c s)) + 1 <? 2) with false.
  - change (Z.to_nat (2 - 1)) with 1%nat. reflexivity.
  - symmetry. apply Z.ltb_ge. cbn [String.length]. lia.
Qed.

Lemma SplitN_whole s :
  ¬ contains s "://" → strings.SplitN s "://" 2 = [s].
Proof.
  intros Hno. apply Index_None in Hno. by rewrite SplitN_scheme_sep, Hno.
Qed.

Lemma SplitN_cut pre rest :
  ¬ contains pre "://" →
  strings.SplitN (pre +:+ "://" +:+ rest) "://" 2 = [pre; rest].
Proof.
  intros Hno. rewrite SplitN_scheme_sep, Index_scheme_sep by done.
  rewrite keep_app, skip_app. reflexivity.
Qed.

End SplitFacts.

(** ** Resolving the configuration *)

Section Resolution.
Variable p : Process.
Variable cfg : Config.t.

Lemma fillDefaults_Address :
  Config.Address (fillDefaults p cfg) = layered_address p cfg.
Proof.
  unfold fillDefaults, layered_address, DefaultConfig, nonempty.
  destruct (String.eqb (Config.Address cfg) ""); [|done].
  destruct (String.eqb_spec (Getenv p "watson_ADDRESS") "") as [->|_];
    simpl; repeat case_match; done.
Qed.

Lemma fillDefaults_Scheme :
  Config.Scheme (fillDefaults p cfg) = layered_scheme p cfg.
Proof.
  unfold fillDefaults, layered_scheme, DefaultConfig, nonempty.
  destruct (String.eqb (Config.Scheme cfg) ""); [|done].
  destruct (String.eqb (Getenv p "watson_SCHEME") "");
    simpl; repeat case_match; done.
Qed.

Lemma fillDefaults_Stack :
  Config.Stack (fillDefaults p cfg) = layered_stack p cfg.
Proof.
  unfold fillDefaults, layered_stack, DefaultConfig, nonempty.
  destruct (String.eqb (Config.Stack cfg) ""); [|done].
  destruct (String.eqb_spec (Getenv p "watson_STACK") "") as [->|_];
    simpl; repeat case_match; done.
Qed.

Lemma fillDefaults_HttpClient :
  Config.HttpClient (fillDefaults p cfg) =
  Some (default (DefaultPooledClient p) (Config.HttpClient cfg)).
Proof.
  unfold fillDefaults, DefaultConfig.
  destruct (Config.HttpClient cfg); simpl; repeat case_match; done.
Qed.

(** No ["://"] in the address: the filled-in configuration is the
    client's. *)
Lemma NewClient_whole :
  ¬ contains (layered_address p cfg) "://" →
  NewClient p cfg =
  (fillDefaults p cfg,
   Ok (mkClient (fillDefaults p cfg) (stackHeaders (fillDefaults p cfg)))).
Proof.
  intros Hno. unfold NewClient.
  rewrite fillDefaults_Address, SplitN_whole by done. reflexivity.
Qed.

(** The address cut at its first ["://"]. *)
Lemma NewClient_cut pre rest :
  layered_address p cfg = pre +:+ "://" +:+ rest →
  ¬ contains pre "://" →
  NewClient p cfg =
  let c1 := fillDefaults p cfg in
  let split scheme :=
    Config.mk rest scheme (Config.Stack c1) (Config.HttpClient c1) in
  if String.eqb pre "http"
  then (split "http", Ok (mkClient (split "http") (stackHeaders (split "http"))))
  else if String.eqb pre "https"
  then (split "https", Ok (mkClient (split "https") (stackHeaders (split "https"))))
  else (c1, Err (InvalidScheme pre)).
Proof.
  intros Haddr Hno. unfold NewClient.
  rewrite fillDefaults_Address, Haddr, SplitN_cut by done. reflexivity.
Qed.

(** A client made from an address holding ["://"] has one of the two
    schemes the switch lets through. *)
Lemma NewClient_Ok_cut c :
  contains (layered_address p cfg) "://" →
  (NewClient p cfg).2 = Ok c →
  Config.Scheme (config c) = "http" ∨ Config.Scheme (config c) = "https".
Proof.
  intros Hc. unfold NewClient.
  rewrite fillDefaults_Address, SplitN_scheme_sep.
  destruct (strings.Index (layered_address p cfg) "://") as [m|] eqn:Hi.
  - repeat case_match; simpl; intros [= <-]; simpl; auto.
  - by apply Index_None in Hi.
Qed.

Lemma layered_address_explicit pre rest :
  Config.Address cfg = pre +:+ "://" +:+ rest →
  layered_address p cfg = Config.Address cfg.
Proof.
  intros Ha. unfold layered_address. rewrite Ha.
  destruct pre; push_append; reflexivity.
Qed.

End Resolution.

Lemma http_no_sep : ¬ contains "http" "://".
Proof. by apply Index_None. Qed.

Lemma https_no_sep : ¬ contains "https" "://".
Proof. by apply Index_None. Qed.

(** C4: an address [http://rest] or [https://rest] (given explicitly or
    through the environment) yields a client whose scheme is that prefix,
    whatever scheme was supplied, and whose host is [rest]; an address whose
    text ahead of the first ["://"] is anything else makes [NewClient] fail
    with [InvalidScheme] carrying that text. *)
Theorem NewClient_embedded_scheme (p : Process) (cfg : Config.t) :
  (∀ scheme rest,
     scheme = "http" ∨ scheme = "https" →
     layered_address p cfg = scheme +:+ "://" +:+ rest →
     ∃ c, (NewClient p cfg).2 = Ok c
          ∧ Config.Scheme (config c) = scheme
          ∧ Config.Address (config c) = rest)
  ∧ (∀ prefix rest,
       layered_address p cfg = prefix +:+ "://" +:+ rest →
       ¬ contains prefix "://" →
       prefix ≠ "http" → prefix ≠ "https" →
       (NewClient p cfg).2 = Err (InvalidScheme prefix)).
Proof.
  split.
  - intros scheme rest [-> | ->] Ha.
    + rewrite (NewClient_cut _ _ _ _ Ha http_no_sep). simpl. eauto.
    + rewrite (NewClient_cut _ _ _ _ Ha https_no_sep). simpl. eauto.
  - intros prefix rest Ha Hno Hhttp Hhttps.
    rewrite (NewClient_cut _ _ _ _ Ha Hno). simpl.
    destruct (String.eqb_spec prefix "http"); [done|].
    destruct (String.eqb_spec prefix "https"); done.
Qed.

(** C4 at work: the explicit scheme [http] gives way to the [https] of the
    address, and [ftp://files] is refused by name. *)
Lemma NewClient_embedded_scheme_witness :
  (∃ c, (NewClient (process_with "" "" "") (Config.mk "https://watson.example" "http" "" None)).2 = Ok c
        ∧ Config.Scheme (config c) = "https"
        ∧ Config.Address (config c) = "watson.example")
  ∧ (NewClient (process_with "" "" "") (Config.mk "ftp://files" "" "" None)).2
    = Err (InvalidScheme "ftp").
Proof.
  split.
  - apply (proj1 (NewClient_embedded_scheme (process_with "" "" "")
                    (Config.mk "https://watson.example" "http" "" None))
             "https" "watson.example"); [by right|reflexivity].
  - apply (proj2 (NewClient_embedded_scheme (process_with "" "" "")
                    (Config.mk "ftp://files" "" "" None))
             "ftp" "files"); [reflexivity|by apply Index_None|done|done].
Defined.

(** C3, as the code has it: a client made from an address that holds
    ["://"] has scheme [http] or [https]; a client made from an address
    without it has the scheme that was supplied (explicitly, else by the
    environment, else [https]), which nothing checks; and an address whose
    text ahead of the first ["://"] is neither [http] nor [https] makes
    [NewClient] fail, so no client comes of it. *)
Theorem NewClient_scheme (p : Process) (cfg : Config.t) :
  (∀ c, (NewClient p cfg).2 = Ok c →
        (contains (layered_address p cfg) "://" →
         Config.Scheme (config c) = "http" ∨ Config.Scheme (config c) = "https")
        ∧ (¬ contains (layered_address p cfg) "://" →
           Config.Scheme (config c) = layered_scheme p cfg))
  ∧ (∀ prefix rest,
       layered_address p cfg = prefix +:+ "://" +:+ rest →
       ¬ contains prefix "://" →
       prefix ≠ "http" → prefix ≠ "https" →
       (NewClient p cfg).2 = Err (InvalidScheme prefix)).
Proof.
  split.
  - intros c Hok. split.
    + intros Hc. by apply (NewClient_Ok_cut p cfg).
    + intros Hno. rewrite (NewClient_whole _ _ Hno) in Hok. simpl in Hok.
      injection Hok as <-. simpl. apply fillDefaults_Scheme.
  - intros prefix rest Ha Hno Hhttp Hhttps.
    rewrite (NewClient_cut _ _ _ _ Ha Hno). simpl.
    destruct (String.eqb_spec prefix "http"); [done|].
    destruct (String.eqb_spec prefix "https"); done.
Qed.

(** C3 at work, on the three kinds of address. *)
Lemma NewClient_scheme_witness :
  (∃ c, (NewClient (process_with "" "" "") (Config.mk "http://watson.example" "" "" None)).2 = Ok c
        ∧ (Config.Scheme (config c) = "http" ∨ Config.Scheme (config c) = "https"))
  ∧ (∃ c, (NewClient (process_with "" "gopher" "") (Config.mk "watson.example" "" "" None)).2 = Ok c
          ∧ Config.Scheme (config c) = "gopher")
  ∧ (NewClient (process_with "" "" "") (Config.mk "ftp://files" "" "" None)).2
    = Err (InvalidScheme "ftp").
Proof.
  split; [|split].
  - eexists. split; [reflexivity|].
    refine (proj1 (proj1 (NewClient_scheme (process_with "" "" "")
                            (Config.mk "http://watson.example" "" "" None)) _ eq_refl) _).
    by exists "http", "watson.example".
  - eexists. split; [reflexivity|].
    refine (proj2 (proj1 (NewClient_scheme (process_with "" "gopher" "")
                            (Config.mk "watson.example" "" "" None)) _ eq_refl) _).
    by apply Index_None.
  - apply (proj2 (NewClient_scheme (process_with "" "" "")
                    (Config.mk "ftp://files" "" "" None)) "ftp" "files");
      [reflexivity|by apply Index_None|done|done].
Defined.

(** C3, the claim as worded fails: with the explicit scheme [ftp] and an
    address without ["://"], [NewClient] makes a client whose scheme is
    [ftp]. *)
Lemma NewClient_unchecked_scheme :
  ∃ c, (NewClient (process_with "" "" "") (Config.mk "watson.example" "ftp" "" None)).2 = Ok c
       ∧ Config.Scheme (config c) = "ftp"
       ∧ Config.Scheme (config c) ≠ "http"
       ∧ Config.Scheme (config c) ≠ "https".
Proof. eexists. split; [reflexivity|]. simpl. done. Qed.

(** C5, as the code has it: the stack default is the explicit value when
    one is given and the environment's otherwise; for an address without
    ["://"], host and scheme are the explicit values when given, the
    environment's values fill the fields left empty, and the scheme is
    [https] when neither gives one; an address that holds ["://"] has its
    prefix cut off, and then host and scheme are the two parts of the
    address, whatever scheme was supplied. *)
Theorem NewClient_precedence (p : Process) (cfg : Config.t) (c : Client) :
  (NewClient p cfg).2 = Ok c →
  (Config.Stack cfg ≠ "" → Config.Stack (config c) = Config.Stack cfg)
  ∧ (Config.Stack cfg = "" → Config.Stack (config c) = Getenv p "watson_STACK")
  ∧ (¬ contains (layered_address p cfg) "://" →
       (Config.Address cfg ≠ "" → Config.Address (config c) = Config.Address cfg)
     ∧ (Config.Address cfg = "" →
        Config.Address (config c) = Getenv p "watson_ADDRESS")
     ∧ (Config.Scheme cfg ≠ "" → Config.Scheme (config c) = Config.Scheme cfg)
     ∧ (Config.Scheme cfg = "" → Getenv p "watson_SCHEME" ≠ "" →
        Config.Scheme (config c) = Getenv p "watson_SCHEME")
     ∧ (Config.Scheme cfg = "" → Getenv p "watson_SCHEME" = "" →
        Config.Scheme (config c) = "https"))
  ∧ (∀ scheme rest,
       layered_address p cfg = scheme +:+ "://" +:+ rest →
       ¬ contains scheme "://" →
       Config.Address (config c) = rest ∧ Config.Scheme (config c) = scheme).
Proof.
  intros Hok.
  assert (Hstack : Config.Stack (config c) = layered_stack p cfg).
  { revert Hok. unfold NewClient.
    rewrite <- fillDefaults_Stack.
    repeat case_match; simpl; intros [= <-]; done. }
  split; [|split; [|split]].
  - intros Hne. rewrite Hstack. unfold layered_stack.
    by destruct (String.eqb_spec (Config.Stack cfg) "").
  - intros He. rewrite Hstack. unfold layered_stack. by rewrite He.
  - intros Hno. rewrite (NewClient_whole _ _ Hno) in Hok.
    cbn [snd] in Hok. injection Hok as <-. cbn [config].
    rewrite fillDefaults_Address, fillDefaults_Scheme.
    unfold layered_address, layered_scheme.
    repeat split.
    + intros Hne. by destruct (String.eqb_spec (Config.Address cfg) "").
    + by intros ->.
    + intros Hne. by destruct (String.eqb_spec (Config.Scheme cfg) "").
    + intros -> Hne. simpl.
      by destruct (String.eqb_spec (Getenv p "watson_SCHEME") "").
    + by intros -> ->.
  - intros scheme rest Ha Hno.
    rewrite (NewClient_cut _ _ _ _ Ha Hno) in Hok. simpl in Hok.
    destruct (String.eqb_spec scheme "http") as [->|_].
    + by injection Hok as <-.
    + destruct (String.eqb_spec scheme "https") as [->|_]; [|done].
      by injection Hok as <-.
Qed.

(** C5 at work, on the specification's scenario: the address
    [myhost:8080], no scheme, and [http] as the environment's scheme. *)
Lemma NewClient_precedence_witness :
  ∃ c, (NewClient (process_with "" "http" "") (Config.mk "myhost:8080" "" "" None)).2 = Ok c
       ∧ Config.Address (config c) = "myhost:8080"
       ∧ Config.Scheme (config c) = "http".
Proof.
  eexists. split; [reflexivity|].
  destruct (NewClient_precedence (process_with "" "http" "")
              (Config.mk "myhost:8080" "" "" None) _ eq_refl)
    as (_ & _ & Hplain & _).
  destruct Hplain as (Haddr & _ & _ & Hscheme & _); [by apply Index_None|].
  split; [by apply Haddr|by apply Hscheme].
Defined.

(** C5, the claim as worded fails: with explicit address [http://a.example]
    and explicit scheme [https], both also set in the environment, the
    client has neither explicit value (host [a.example], scheme [http]);
    and with the explicit scheme [https] and the address left to the
    environment's [http://e.example], the scheme is [http]. *)
Lemma NewClient_explicit_scheme_overridden :
  (∃ c, (NewClient (process_with "e.example" "https" "")
           (Config.mk "http://a.example" "https" "" None)).2 = Ok c
        ∧ Config.Address (config c) ≠ "http://a.example"
        ∧ Config.Scheme (config c) ≠ "https")
  ∧ (∃ c, (NewClient (process_with "http://e.example" "https" "")
             (Config.mk "" "https" "" None)).2 = Ok c
          ∧ Config.Scheme (config c) ≠ "https").
Proof.
  split; eexists; (split; [reflexivity|]); simpl; done.
Qed.

(** C10, as the code has it: [NewClient] writes to the caller's [Config].
    Its empty [Stack] and [HttpClient] are filled in; with an address
    without ["://"], its empty [Address] and [Scheme] are filled in and the
    rest is left as it was; with an address [http://rest] or
    [https://rest], [Address] becomes [rest] and [Scheme] the prefix; with
    any other text ahead of the first ["://"] the call returns its error
    with the fields filled in but [Address] and [Scheme] not cut. The client
    holds a copy of the [Config] as the call leaves it. *)
Theorem NewClient_writes_config (p : Process) (cfg : Config.t) :
  let cfg' := (NewClient p cfg).1 in
  Config.Stack cfg' = layered_stack p cfg
  ∧ Config.HttpClient cfg'
    = Some (default (DefaultPooledClient p) (Config.HttpClient cfg))
  ∧ (¬ contains (layered_address p cfg) "://" →
     Config.Address cfg' = layered_address p cfg
     ∧ Config.Scheme cfg' = layered_scheme p cfg)
  ∧ (∀ prefix rest,
       layered_address p cfg = prefix +:+ "://" +:+ rest →
       ¬ contains prefix "://" →
       (prefix = "http" ∨ prefix = "https" →
        Config.Address cfg' = rest ∧ Config.Scheme cfg' = prefix)
       ∧ (prefix ≠ "http" → prefix ≠ "https" →
          Config.Address cfg' = layered_address p cfg
          ∧ Config.Scheme cfg' = layered_scheme p cfg))
  ∧ (∀ c, (NewClient p cfg).2 = Ok c → config c = cfg').
Proof.
  cbv zeta. split; [|split; [|split; [|split]]].
  - unfold NewClient. rewrite <- fillDefaults_Stack.
    repeat case_match; done.
  - unfold NewClient. rewrite <- fillDefaults_HttpClient.
    repeat case_match; done.
  - intros Hno. rewrite (NewClient_whole _ _ Hno). cbn [fst].
    by rewrite fillDefaults_Address, fillDefaults_Scheme.
  - intros prefix rest Ha Hno. rewrite (NewClient_cut _ _ _ _ Ha Hno). simpl.
    split.
    + by intros [-> | ->].
    + intros Hhttp Hhttps.
      destruct (String.eqb_spec prefix "http"); [done|].
      destruct (String.eqb_spec prefix "https"); [done|]. cbn [fst].
      by rewrite fillDefaults_Address, fillDefaults_Scheme.
  - intros c. unfold NewClient.
    repeat case_match; simpl; intros [= <-]; done.
Qed.

(** C10 at work: an empty [Config] filled from the environment, and an
    explicit address cut at its scheme. *)
Lemma NewClient_writes_config_witness :
  (NewClient (process_with "watson.example" "http" "frontend/dev")
     (Config.mk "" "" "" None)).1
  = Config.mk "watson.example" "http" "frontend/dev" (Some (always 404 ""))
  ∧ Config.Address
      (NewClient (process_with "" "" "")
         (Config.mk "http://watson.example" "https" "" None)).1
    = "watson.example"
  ∧ Config.Scheme
      (NewClient (process_with "" "" "")
         (Config.mk "http://watson.example" "https" "" None)).1
    = "http".
Proof.
  split.
  - destruct (NewClient_writes_config
                (process_with "watson.example" "http" "frontend/dev")
                (Config.mk "" "" "" None))
      as (Hstack & Hclient & Hplain & _).
    destruct Hplain as [Haddr Hscheme]; [by apply Index_None|].
    revert Hstack Hclient Haddr Hscheme.
    destruct (NewClient _ _).1 as [a s st h]. simpl.
    by intros -> -> -> ->.
  - destruct (NewClient_writes_config (process_with "" "" "")
                (Config.mk "http://watson.example" "https" "" None))
      as (_ & _ & _ & Hcut & _).
    apply (Hcut "http" "watson.example"); [reflexivity|by apply Index_None|by left].
Defined.

(** C10, the claim as worded fails: for the address [ftp://files] the call
    leaves the caller's [Address] and [Scheme] filled in but not rewritten
    to the two halves [files] and [ftp]. *)
Lemma NewClient_unknown_scheme_not_split :
  (NewClient (process_with "" "" "") (Config.mk "ftp://files" "" "" None)).2
  = Err (InvalidScheme "ftp")
  ∧ Config.Address
      (NewClient (process_with "" "" "") (Config.mk "ftp://files" "" "" None)).1
    = "ftp://files"
  ∧ Config.Scheme
      (NewClient (process_with "" "" "") (Config.mk "ftp://files" "" "" None)).1
    = "https".
Proof. repeat split. Qed.

(** ** The two GET calls *)

Section CallFacts.
Context `{GoLib}.

(** A request that parses and that the transport answers. *)
Lemma doRequest_answered (c : Client) (h : HttpClient) path wire resp :
  Config.HttpClient (config c) = Some h →
  NewRequest_error path = None →
  Do h wire (request c path) = inr resp →
  doRequest (Some c) path wire = (Ok resp, (wire ++ [request c path])%list).
Proof.
  intros Hh Hp Hd. unfold doRequest, send. by rewrite Hp, Hh, Hd.
Qed.

Lemma GetOutputs_invalid c stack wire :
  validateStackName stack ≠ None →
  GetOutputs c stack wire = (Err (InvalidStackName stack), wire).
Proof.
  unfold GetOutputs, validateStackName. by destruct (negb _).
Qed.

Lemma GetStack_invalid c stack wire :
  validateStackName stack ≠ None →
  GetStack c stack wire = (Err (InvalidStackName stack), wire).
Proof.
  unfold GetStack, validateStackName. by destruct (negb _).
Qed.

(** What [GetOutputs] makes of an answer. *)
Lemma GetOutputs_answered c stack wire wire' resp :
  validateStackName stack = None →
  doRequest c ("/v1/projects/" +:+ stack +:+ "/outputs/") wire = (Ok resp, wire') →
  GetOutputs c stack wire =
  if StatusCode resp =? 200 then
    match Decode_Outputs (Body resp) with
    | inl e => (Err (DecodeError e), wire')
    | inr outputs => (Ok (Some outputs), wire')
    end
  else if StatusCode resp =? 404 then (Ok None, wire')
  else (Err (UnexpectedStatus (StatusCode resp)), wire').
Proof.
  intros Hv Hd. unfold GetOutputs. rewrite Hv.
  unfold mbind, M_bind. rewrite Hd.
  repeat case_match; done.
Qed.

(** What [GetStack] makes of an answer. *)
Lemma GetStack_answered c stack wire wire' resp :
  validateStackName stack = None →
  doRequest c ("/v1/projects/" +:+ stack +:+ "/") wire = (Ok resp, wire') →
  GetStack c stack wire =
  if StatusCode resp =? 200 then
    match Decode_Stack (Body resp) with
    | inl e => (Err (DecodeError e), wire')
    | inr s => (Ok (Some s), wire')
    end
  else if StatusCode resp =? 404 then (Ok None, wire')
  else (Err (UnexpectedStatus (StatusCode resp)), wire').
Proof.
  intros Hv Hd. unfold GetStack. rewrite Hv.
  unfold mbind, M_bind. rewrite Hd.
  repeat case_match; done.
Qed.

End CallFacts.

(** C6: for a stack name that passes validation, when the transport
    answers the request with status 404, [GetOutputs] and [GetStack] return
    the absent result ([nil] with a [nil] error), having sent that one
    request. *)
Theorem not_found_is_absent `{GoLib} (c : Client) (h : HttpClient)
    (stack : string) (wire : list Request) :
  validateStackName stack = None →
  Config.HttpClient (config c) = Some h →
  (∀ resp,
     let path := "/v1/projects/" +:+ stack +:+ "/outputs/" in
     NewRequest_error path = None →
     Do h wire (request c path) = inr resp →
     StatusCode resp = 404 →
     GetOutputs (Some c) stack wire = (Ok None, (wire ++ [request c path])%list))
  ∧ (∀ resp,
       let path := "/v1/projects/" +:+ stack +:+ "/" in
       NewRequest_error path = None →
       Do h wire (request c path) = inr resp →
       StatusCode resp = 404 →
       GetStack (Some c) stack wire = (Ok None, (wire ++ [request c path])%list)).
Proof.
  intros Hv Hh. split; intros resp path Hp Hd Hs.
  - rewrite (GetOutputs_answered _ _ _ _ resp Hv (doRequest_answered _ _ _ _ _ Hh Hp Hd)).
    by rewrite Hs.
  - rewrite (GetStack_answered _ _ _ _ resp Hv (doRequest_answered _ _ _ _ _ Hh Hp Hd)).
    by rewrite Hs.
Qed.

(** C6 at work: [backend/load-balancers] against a server that knows no
    stack. *)
Lemma not_found_is_absent_witness :
  @GetOutputs sampleLib (Some (sample_client (always 404 ""))) "backend/load-balancers" []
  = (Ok None, [request (sample_client (always 404 "")) "/v1/projects/backend/load-balancers/outputs/"])
  ∧ @GetStack sampleLib (Some (sample_client (always 404 ""))) "backend/load-balancers" []
    = (Ok None, [request (sample_client (always 404 "")) "/v1/projects/backend/load-balancers/"]).
Proof.
  destruct (@not_found_is_absent sampleLib (sample_client (always 404 ""))
              (always 404 "") "backend/load-balancers" [] eq_refl eq_refl)
    as [Houtputs Hstack].
  split.
  - exact (Houtputs (mkResponse 404 "") eq_refl eq_refl eq_refl).
  - exact (Hstack (mkResponse 404 "") eq_refl eq_refl eq_refl).
Defined.

(** C7: for a stack name that passes validation, when the transport
    answers the request with a status other than 200 and 404, [GetOutputs]
    and [GetStack] fail with [UnexpectedStatus] carrying that status. *)
Theorem other_status_is_unexpected `{GoLib} (c : Client) (h : HttpClient)
    (stack : string) (wire : list Request) :
  validateStackName stack = None →
  Config.HttpClient (config c) = Some h →
  (∀ resp,
     let path := "/v1/projects/" +:+ stack +:+ "/outputs/" in
     NewRequest_error path = None →
     Do h wire (request c path) = inr resp →
     StatusCode resp ≠ 200 → StatusCode resp ≠ 404 →
     GetOutputs (Some c) stack wire
     = (Err (UnexpectedStatus (StatusCode resp)), (wire ++ [request c path])%list))
  ∧ (∀ resp,
       let path := "/v1/projects/" +:+ stack +:+ "/" in
       NewRequest_error path = None →
       Do h wire (request c path) = inr resp →
       StatusCode resp ≠ 200 → StatusCode resp ≠ 404 →
       GetStack (Some c) stack wire
       = (Err (UnexpectedStatus (StatusCode resp)), (wire ++ [request c path])%list)).
Proof.
  intros Hv Hh. split; intros resp path Hp Hd H200 H404.
  - rewrite (GetOutputs_answered _ _ _ _ resp Hv (doRequest_answered _ _ _ _ _ Hh Hp Hd)).
    destruct (Z.eqb_spec (StatusCode resp) 200); [done|].
    by destruct (Z.eqb_spec (StatusCode resp) 404).
  - rewrite (GetStack_answered _ _ _ _ resp Hv (doRequest_answered _ _ _ _ _ Hh Hp Hd)).
    destruct (Z.eqb_spec (StatusCode resp) 200); [done|].
    by destruct (Z.eqb_spec (StatusCode resp) 404).
Qed.

(** C7 at work: a server that answers 503. *)
Lemma other_status_is_unexpected_witness :
  (@GetOutputs sampleLib (Some (sample_client (always 503 ""))) "backend/load-balancers" []).1
  = Err (UnexpectedStatus 503)
  ∧ (@GetStack sampleLib (Some (sample_client (always 503 ""))) "backend/load-balancers" []).1
    = Err (UnexpectedStatus 503).
Proof.
  destruct (@other_status_is_unexpected sampleLib (sample_client (always 503 ""))
              (always 503 "") "backend/load-balancers" [] eq_refl eq_refl)
    as [Houtputs Hstack].
  split.
  - by rewrite (Houtputs (mkResponse 503 "") eq_refl eq_refl).
  - by rewrite (Hstack (mkResponse 503 "") eq_refl eq_refl).
Defined.

(** C8: for a stack name that fails validation, [GetOutputs] and
    [GetStack] return [InvalidStackName] carrying the name and leave the
    wire as it was: no request is sent, whatever the client. *)
Theorem invalid_name_sends_nothing `{GoLib} (c : option Client)
    (stack : string) (wire : list Request) :
  validateStackName stack ≠ None →
  GetOutputs c stack wire = (Err (InvalidStackName stack), wire)
  ∧ GetStack c stack wire = (Err (InvalidStackName stack), wire).
Proof.
  intros Hv. split; [by apply GetOutputs_invalid|by apply GetStack_invalid].
Qed.

(** C8 at work: the name [hello] of the acceptance test, which has no
    [/]. *)
Lemma invalid_name_sends_nothing_witness :
  @GetOutputs sampleLib (Some (sample_client (always 200 sample_body))) "hello" []
  = (Err (InvalidStackName "hello"), [])
  ∧ @GetStack sampleLib (Some (sample_client (always 200 sample_body))) "hello" []
    = (Err (InvalidStackName "hello"), []).
Proof.
  apply (@invalid_name_sends_nothing sampleLib). discriminate.
Defined.

(** ** Decoding the outputs *)

Section DecodeFacts.
Context `{GoLib}.

(** A member named [sensitive] selects no field of [Output]. *)
Lemma store_Output_member_sensitive o j :
  store_Output_member o ("sensitive", j) = (o, []).
Proof. reflexivity. Qed.

(** So a trailing [sensitive] member changes nothing of what is
    decoded. *)
Lemma unmarshal_Output_sensitive members j :
  unmarshal_Output (JObject (members ++ [("sensitive", j)])%list)
  = unmarshal_Output (JObject members).
Proof.
  unfold unmarshal_Output. rewrite foldl_app. cbn [foldl].
  rewrite store_Output_member_sensitive. cbn [fst snd].
  rewrite app_nil_r. by destruct (foldl _ _ members).
Qed.

(** The three fields that are declared are read, whatever the case of the
    member names, and a string field without a member stays empty. *)
Example unmarshal_Output_fields :
  unmarshal_Output
    (JObject [("value", JString "10.0.0.1"); ("DEPRECATED", JString "use hostname")])
  = (mkOutput (GoString "10.0.0.1") "use hostname" "", []).
Proof. reflexivity. Qed.

End DecodeFacts.

(** C2, where the code departs from the claim: the body
    [{"hostname": {"value": "https://hello.example", "sensitive": b}}]
    decodes to the one output [hostname] with its three fields [Value],
    [Deprecated] and [Warning], the last two empty by default, and to the
    same for [b] true and false: [Output] has no field for [sensitive], and
    the member is passed over. *)
Theorem unmarshal_Outputs_drops_sensitive `{GoLib} (b : bool) :
  unmarshal_Outputs
    (JObject [("hostname", JObject [("value", JString "https://hello.example");
                                    ("sensitive", JBool b)])])
  = ({["hostname" := mkOutput (GoString "https://hello.example") "" ""]}, []).
Proof. reflexivity. Qed.

(** ** Diagnostics *)

Section DiagnosticFacts.

Lemma elem_of_Append (d : Diagnostic) (diags more : Diagnostics) :
  d ∈ Append diags more ↔ d ∈ diags ∨ d ∈ more.
Proof.
  unfold Append. revert diags.
  induction more as [|d' more IH]; intros diags; cbn [foldl].
  - rewrite elem_of_nil. tauto.
  - rewrite IH, elem_of_cons. case_decide as Hin.
    + split; [tauto|]. intros [?|[->|?]]; auto.
    + rewrite elem_of_app, list_elem_of_singleton. tauto.
Qed.

Lemma HasError_true (diags : Diagnostics) :
  HasError diags = true ↔ ∃ d, d ∈ diags ∧ severity d = SeverityError.
Proof.
  unfold HasError. rewrite existsb_exists. split.
  - intros (d & Hin & Hd). exists d. split; [by apply list_elem_of_In|].
    by apply bool_decide_eq_true in Hd.
  - intros (d & Hin & Hd). exists d. split; [by apply list_elem_of_In|].
    by apply bool_decide_eq_true.
Qed.

Lemma HasError_Append (diags more : Diagnostics) :
  HasError (Append diags more) = HasError diags || HasError more.
Proof.
  apply eq_true_iff_eq. rewrite orb_true_iff, !HasError_true.
  setoid_rewrite elem_of_Append. split.
  - intros (d & [?|?] & ?); [left|right]; eauto.
  - intros [(d & ? & ?)|(d & ? & ?)]; eauto.
Qed.

Lemma elem_of_AddWarning d diags summary detail :
  d ∈ AddWarning diags summary detail ↔
  d ∈ diags ∨ d = mkDiagnostic SeverityWarning summary detail.
Proof.
  unfold AddWarning. by rewrite elem_of_Append, list_elem_of_singleton.
Qed.

End DiagnosticFacts.

(** ** The loop of [Read] *)

Section ReadFacts.
Context `{GoLib}.
Variable Sensitive : Output → bool.

Lemma step_string acc k v s :
  Value v = GoString s →
  (Read_output Sensitive acc (k, v)).1 = <[k := output_object Sensitive v s]> acc.1.
Proof.
  intros Hv. unfold Read_output. cbn [fst snd]. rewrite Hv.
  repeat case_match; done.
Qed.

Lemma step_other acc k v :
  (∀ s, Value v ≠ GoString s) →
  (Read_output Sensitive acc (k, v)).1 = acc.1 ∧ ignored k v ∈ (Read_output Sensitive acc (k, v)).2.
Proof.
  intros Hv. unfold Read_output, ignored. cbn [fst snd].
  destruct (Value v) eqn:Hval; try (by specialize (Hv s));
    (split; [by repeat case_match|]);
    repeat case_match; cbn [fst snd];
    rewrite ?elem_of_AddWarning; auto.
Qed.

Lemma step_diags acc kv d :
  (d ∈ acc.2 → d ∈ (Read_output Sensitive acc kv).2)
  ∧ (d ∈ (Read_output Sensitive acc kv).2 → d ∈ acc.2 ∨ severity d = SeverityWarning).
Proof.
  unfold Read_output.
  destruct (Value kv.2); repeat case_match; cbn [fst snd];
    rewrite ?elem_of_AddWarning; split; intros; destruct_or?; subst; auto.
Qed.

Lemma loop_diags l acc d :
  (d ∈ acc.2 → d ∈ (foldl (Read_output Sensitive) acc l).2)
  ∧ (d ∈ (foldl (Read_output Sensitive) acc l).2 → d ∈ acc.2 ∨ severity d = SeverityWarning).
Proof.
  revert acc. induction l as [|kv l IH]; intros acc; cbn [foldl]; [tauto|].
  destruct (IH (Read_output Sensitive acc kv)) as [IH1 IH2].
  destruct (step_diags acc kv d) as [S1 S2]. split; [auto|].
  intros Hd. destruct (IH2 Hd); auto.
Qed.

Lemma loop_keep l acc k :
  k ∉ l.*1 → (foldl (Read_output Sensitive) acc l).1 !! k = acc.1 !! k.
Proof.
  revert acc. induction l as [|[k' v'] l IH]; intros acc Hk; cbn [foldl]; [done|].
  rewrite fmap_cons, not_elem_of_cons in Hk. destruct Hk as [Hne Hk].
  rewrite IH by done.
  destruct (Value v') eqn:Hv;
    try (by rewrite (proj1 (step_other acc k' v' ltac:(by rewrite Hv))));
    rewrite (step_string acc k' v' _ Hv); by rewrite lookup_insert_ne.
Qed.

Lemma loop_string l acc k v s :
  NoDup l.*1 → (k, v) ∈ l → Value v = GoString s →
  (foldl (Read_output Sensitive) acc l).1 !! k = Some (output_object Sensitive v s).
Proof.
  revert acc. induction l as [|[k' v'] l IH]; intros acc Hnd Hin Hv;
    [by apply elem_of_nil in Hin|].
  rewrite fmap_cons, NoDup_cons in Hnd. destruct Hnd as [Hk' Hnd].
  apply elem_of_cons in Hin as [[= <- <-]|Hin]; cbn [foldl].
  - rewrite loop_keep by done.
    by rewrite (step_string acc k v s Hv), lookup_insert_eq.
  - by apply IH.
Qed.

Lemma loop_other l acc k v :
  NoDup l.*1 → (k, v) ∈ l → (∀ s, Value v ≠ GoString s) →
  (foldl (Read_output Sensitive) acc l).1 !! k = acc.1 !! k
  ∧ ignored k v ∈ (foldl (Read_output Sensitive) acc l).2.
Proof.
  revert acc. induction l as [|[k' v'] l IH]; intros acc Hnd Hin Hv;
    [by apply elem_of_nil in Hin|].
  rewrite fmap_cons, NoDup_cons in Hnd. destruct Hnd as [Hk' Hnd].
  apply elem_of_cons in Hin as [[= <- <-]|Hin]; cbn [foldl].
  - destruct (step_other acc k v Hv) as [Hr Hd]. split.
    + by rewrite loop_keep, Hr.
    + by apply loop_diags.
  - destruct (IH (Read_output Sensitive acc (k', v')) Hnd Hin Hv) as [Hr Hd]. split; [|done].
    rewrite Hr.
    assert (k ≠ k').
    { intros ->. apply Hk'. apply list_elem_of_fmap. by exists (k', v). }
    destruct (Value v') eqn:Hv';
      try (by rewrite (proj1 (step_other acc k' v' ltac:(by rewrite Hv'))));
      rewrite (step_string acc k' v' _ Hv'); by rewrite lookup_insert_ne.
Qed.

End ReadFacts.

(** ** The data source's [Read] *)



(** The same run, in full: one warning, and a state whose outputs hold
    [hostname] alone. *)
Example Read_sample_run :
  (@Read sampleLib (λ _, false) map_to_list (λ _, [])
     (mkOutputsDataSource (Some (sample_client (always 200 sample_body))))
     (mkReadRequest
        ([], OutputsDataSourceModel.mk StringNull
               (StringValue "backend/load-balancers") MapNull))
     (mkReadResponse [] None) []).1
  = Ok (mkReadResponse
          [mkDiagnostic SeverityWarning "ignored output"
             (dquote "output 'count' has type float64 and is ignored for now")]
          (Some (OutputsDataSourceModel.mk
                   (StringValue "backend/load-balancers")
                   (StringValue "backend/load-balancers")
                   (MapValue
                      {["hostname" :=
                          ObjectValue
                            {[ "value" := StringValue "https://hello.example";
                               "deprecated" := StringValue "";
                               "warning" := StringValue "";
                               "sensitive" := BoolValue false ]}]})))).
Proof. vm_compute. reflexivity. Qed.

(** * Further properties of the client *)

(** ** The first ["://"] *)

Section IndexFacts.

Lemma length_append a b :
  String.length (a +:+ b) = (String.length a + String.length b)%nat.
Proof. induction a as [|c a IH]; push_append; simpl; [done|by rewrite IH]. Qed.

Lemma append_assoc a b c : (a +:+ b) +:+ c = a +:+ b +:+ c.
Proof. induction a as [|x a IH]; push_append; [done|by rewrite IH]. Qed.

Lemma length_keep m s :
  (m ≤ String.length s)%nat → String.length (strings.keep m s) = m.
Proof.
  revert s. induction m as [|m IH]; intros s Hm; [done|].
  destruct s as [|c s]; simpl in *; [lia|]. rewrite IH; lia.
Qed.

Lemma keep_skip m s : strings.keep m s +:+ strings.skip m s = s.
Proof.
  revert s. induction m as [|m IH]; intros [|c s]; simpl; push_append; try done.
  by rewrite IH.
Qed.

Lemma skip_skip m n s : strings.skip n (strings.skip m s) = strings.skip (m + n) s.
Proof.
  revert s. induction m as [|m IH]; intros [|c s]; simpl; try done.
  by destruct n.
Qed.

(** Where [strings.Index] points, the separator stands. *)
Lemma Index_Some_split s sep m :
  strings.Index s sep = Some m →
  s = strings.keep m s +:+ sep +:+ strings.skip (m + String.length sep) s.
Proof.
  revert m. induction s as [|c s IH]; intros m; cbn [strings.Index];
    unfold strings.HasPrefix.
  - destruct sep; [|done]. by intros [= <-].
  - destruct (String.prefix sep (String c s)) eqn:Hp.
    + intros [= <-]. destruct (prefix_true _ _ Hp) as [b Hb]. rewrite Hb.
      replace (0 + String.length sep)%nat with (String.length sep + 0)%nat by lia.
      rewrite skip_app. reflexivity.
    + destruct (strings.Index s sep) as [m'|]; [|done]. intros [= <-].
      cbn [strings.keep strings.skip Nat.add]. push_append. f_equal. by apply IH.
Qed.

(** And no instance of the separator starts before it. *)
Lemma Index_Some_first s sep m a b :
  strings.Index s sep = Some m → s = a +:+ sep +:+ b → (m ≤ String.length a)%nat.
Proof.
  revert m a. induction s as [|c s IH]; intros m a; cbn [strings.Index];
    unfold strings.HasPrefix.
  - destruct (String.prefix sep ""); [|done]. intros [= <-]. lia.
  - destruct (String.prefix sep (String c s)) eqn:Hp; [intros [= <-]; lia|].
    destruct (strings.Index s sep) as [m'|] eqn:Hi; [|done]. intros [= <-] Hs.
    destruct a as [|c' a]; push_append.
    + pose proof (prefix_app sep b) as Hq. rewrite <- Hs in Hq. congruence.
    + injection Hs as _ Hs. cbn [String.length].
      specialize (IH m' a eq_refl Hs). lia.
Qed.

Lemma Index_Some_le s sep m :
  strings.Index s sep = Some m → (m + String.length sep ≤ String.length s)%nat.
Proof.
  revert m. induction s as [|c s IH]; intros m; cbn [strings.Index];
    unfold strings.HasPrefix.
  - destruct sep; [|done]. intros [= <-]. simpl. lia.
  - destruct (String.prefix sep (String c s)) eqn:Hp.
    + intros [= <-]. destruct (prefix_true _ _ Hp) as [b Hb].
      rewrite Hb, length_append. lia.
    + destruct (strings.Index s sep) as [m'|]; [|done]. intros [= <-].
      specialize (IH m' eq_refl). cbn [String.length]. lia.
Qed.

Lemma Index_Some_prefix_clean s sep m :
  sep ≠ "" →
  strings.Index s sep = Some m → ¬ contains (strings.keep m s) sep.
Proof.
  intros Hsep Hi (a & b & Hk).
  pose proof (Index_Some_split _ _ _ Hi) as Hs.
  pose proof (Index_Some_le _ _ _ Hi) as Hle.
  assert (Hlen : String.length (strings.keep m s) = m) by (apply length_keep; lia).
  rewrite Hk in Hs.
  assert (Hs' : s = a +:+ sep +:+ (b +:+ sep +:+ strings.skip (m + String.length sep) s)).
  { rewrite Hs at 1. by rewrite !append_assoc. }
  pose proof (Index_Some_first _ _ _ _ _ Hi Hs') as Hfirst.
  rewrite Hk, !length_append in Hlen.
  destruct sep; [done|]. cbn [String.length] in Hlen. lia.
Qed.

End IndexFacts.

(** ** What [NewClient] returns *)

Lemma address_cases s :
  ¬ contains s "://"
  ∨ ∃ pre rest, s = pre +:+ "://" +:+ rest ∧ ¬ contains pre "://".
Proof.
  destruct (strings.Index s "://") as [m|] eqn:Hi.
  - right. exists (strings.keep m s), (strings.skip (m + 3) s). split.
    + exact (Index_Some_split _ _ _ Hi).
    + apply (Index_Some_prefix_clean s "://" m); [discriminate|exact Hi].
  - left. by apply Index_None.
Qed.

(** X1: [NewClient], on the configuration it is given, fails in one case
    and always in that case: the address (explicit, else the environment's)
    holds ["://"] and the text ahead of the first one is neither [http] nor
    [https]. The error is [InvalidScheme] and carries that text. *)
Theorem NewClient_fails_only_on_scheme (p : Process) (cfg : Config.t) (e : error) :
  (NewClient p cfg).2 = Err e ↔
  ∃ pre rest,
    e = InvalidScheme pre
    ∧ layered_address p cfg = pre +:+ "://" +:+ rest
    ∧ ¬ contains pre "://" ∧ pre ≠ "http" ∧ pre ≠ "https".
Proof.
  split.
  - destruct (address_cases (layered_address p cfg)) as [Hno|(pre & rest & Ha & Hno)].
    + by rewrite (NewClient_whole _ _ Hno).
    + rewrite (NewClient_cut _ _ _ _ Ha Hno). cbv zeta.
      destruct (String.eqb_spec pre "http"); [done|].
      destruct (String.eqb_spec pre "https"); [done|].
      cbn [snd]. intros [= <-]. eauto 10.
  - intros (pre & rest & -> & Ha & Hno & Hhttp & Hhttps).
    rewrite (NewClient_cut _ _ _ _ Ha Hno). cbv zeta.
    destruct (String.eqb_spec pre "http"); [done|].
    by destruct (String.eqb_spec pre "https").
Qed.

(** X2: cutting the address loses nothing: for a client made from an
    address that holds ["://"], the scheme, ["://"] and the host put
    together again are the address that was given. *)
Theorem NewClient_reassembles (p : Process) (cfg : Config.t) (c : Client) :
  (NewClient p cfg).2 = Ok c →
  contains (layered_address p cfg) "://" →
  Config.Scheme (config c) +:+ "://" +:+ Config.Address (config c)
  = layered_address p cfg.
Proof.
  intros Hok Hc.
  destruct (address_cases (layered_address p cfg)) as [Hno|(pre & rest & Ha & Hno)];
    [done|].
  rewrite (NewClient_cut _ _ _ _ Ha Hno) in Hok. cbv zeta in Hok.
  destruct (String.eqb_spec pre "http") as [->|_].
  - cbn [snd] in Hok. injection Hok as <-. by rewrite Ha.
  - destruct (String.eqb_spec pre "https") as [->|_]; [|done].
    cbn [snd] in Hok. injection Hok as <-. by rewrite Ha.
Qed.

Lemma NewClient_reassembles_witness :
  ∃ c, (NewClient (process_with "https://watson.example:8443" "" "")
          (Config.mk "" "http" "" None)).2 = Ok c
       ∧ Config.Scheme (config c) +:+ "://" +:+ Config.Address (config c)
         = "https://watson.example:8443".
Proof.
  eexists. split; [reflexivity|].
  apply (NewClient_reassembles (process_with "https://watson.example:8443" "" "")
           (Config.mk "" "http" "" None) _ eq_refl).
  by exists "https", "watson.example:8443".
Defined.

(** X3: a client made by [NewClient] holds no header but the stack header:
    with a stack default (explicit, else the environment's) that is not
    empty, its headers are [X-Watson-Stack] with that value alone, and with
    an empty one it has no header at all. *)
Theorem NewClient_stack_header (p : Process) (cfg : Config.t) (c : Client) :
  (NewClient p cfg).2 = Ok c →
  (layered_stack p cfg ≠ "" →
   headers c = [("X-Watson-Stack", [layered_stack p cfg])])
  ∧ (layered_stack p cfg = "" → headers c = []).
Proof.
  intros Hok.
  assert (Hh : headers c = stackHeaders (config c)
               ∧ Config.Stack (config c) = layered_stack p cfg).
  { revert Hok. unfold NewClient. rewrite <- fillDefaults_Stack.
    repeat case_match; cbn [snd]; intros [= <-]; done. }
  destruct Hh as [-> Hs]. unfold stackHeaders, nonempty. rewrite Hs.
  split; intros Hl.
  - by destruct (String.eqb_spec (layered_stack p cfg) "").
  - by rewrite Hl.
Qed.

Lemma NewClient_stack_header_witness :
  (∃ c, (NewClient (process_with "watson.example" "" "frontend/dev")
           (Config.mk "" "" "" None)).2 = Ok c
        ∧ headers c = [("X-Watson-Stack", ["frontend/dev"])])
  ∧ (∃ c, (NewClient (process_with "watson.example" "" "")
             (Config.mk "" "" "" None)).2 = Ok c
          ∧ headers c = []).
Proof.
  split; eexists; (split; [reflexivity|]).
  - apply (NewClient_stack_header (process_with "watson.example" "" "frontend/dev")
             (Config.mk "" "" "" None) _ eq_refl). discriminate.
  - apply (NewClient_stack_header (process_with "watson.example" "" "")
             (Config.mk "" "" "" None) _ eq_refl). reflexivity.
Defined.

(** ** What the two calls send *)

Section WireFacts.
Context `{GoLib}.

Lemma doRequest_wire (c : option Client) path wire :
  (doRequest c path wire).2 = wire
  ∨ ∃ cl, c = Some cl ∧ (doRequest c path wire).2 = (wire ++ [request cl path])%list.
Proof.
  unfold doRequest, send, fail, panic.
  destruct (NewRequest_error path); [by left|].
  destruct c as [cl|]; [|by left].
  destruct (Config.HttpClient (config cl)); [|by left].
  right. by exists cl.
Qed.

Lemma bind_wire {A B} (m : M A) (k : A → M B) wire :
  (∀ a w, (k a w).2 = w) →
  ((m ≫= k) wire).2 = (m wire).2.
Proof.
  intros Hk. unfold mbind, M_bind. destruct (m wire) as [[a|e|] w]; [|done..].
  apply Hk.
Qed.

Lemma GetOutputs_wire c stack wire :
  (GetOutputs c stack wire).2 = wire
  ∨ (GetOutputs c stack wire).2
    = (doRequest c ("/v1/projects/" +:+ stack +:+ "/outputs/") wire).2.
Proof.
  unfold GetOutputs. destruct (validateStackName stack); [by left|]. right.
  apply bind_wire. intros a w. unfold mret, M_ret, fail. by repeat case_match.
Qed.

Lemma GetStack_wire c stack wire :
  (GetStack c stack wire).2 = wire
  ∨ (GetStack c stack wire).2
    = (doRequest c ("/v1/projects/" +:+ stack +:+ "/") wire).2.
Proof.
  unfold GetStack. destruct (validateStackName stack); [by left|]. right.
  apply bind_wire. intros a w. unfold mret, M_ret, fail. by repeat case_match.
Qed.

End WireFacts.

(** X4: a client made by [NewClient] has a transport, so [GetOutputs] and
    [GetStack] on it never panic, whatever the stack name and whatever the
    transport answers. *)
Theorem NewClient_calls_never_panic `{GoLib} (p : Process) (cfg : Config.t)
    (c : Client) (stack : string) (wire : list Request) :
  (NewClient p cfg).2 = Ok c →
  (GetOutputs (Some c) stack wire).1 ≠ Panic
  ∧ (GetStack (Some c) stack wire).1 ≠ Panic.
Proof.
  intros Hok.
  assert (Hh : ∃ h, Config.HttpClient (config c) = Some h).
  { pose proof (fillDefaults_HttpClient p cfg) as Hf. revert Hok.
    unfold NewClient. repeat case_match; cbn [snd]; intros [= <-]; eauto. }
  destruct Hh as [h Hh].
  unfold GetOutputs, GetStack, doRequest, send, fail, mbind, M_bind, mret, M_ret.
  rewrite Hh. split; repeat case_match; simplify_eq/=; done.
Qed.

Lemma NewClient_calls_never_panic_witness :
  ∃ c, (NewClient (process_with "watson.example" "" "") (Config.mk "" "" "" None)).2 = Ok c
       ∧ (@GetOutputs sampleLib (Some c) "backend/load-balancers" []).1 ≠ Panic
       ∧ (@GetStack sampleLib (Some c) "backend/load-balancers" []).1 ≠ Panic.
Proof.
  eexists. split; [reflexivity|].
  apply (@NewClient_calls_never_panic sampleLib
           (process_with "watson.example" "" "") (Config.mk "" "" "" None)).
  reflexivity.
Defined.

(** X5: [GetOutputs] and [GetStack] call the transport's [Do] at most
    once, and leave the record of the calls made before as it was. What
    they hand to [Do] is a GET request that carries the scheme, the host and
    the headers of the client. *)
Theorem calls_reach_transport_at_most_once `{GoLib} (c : option Client)
    (stack : string) (wire : list Request) :
  let handed (wire' : list Request) :=
    wire' = wire
    ∨ ∃ cl req,
        c = Some cl ∧ wire' = (wire ++ [req])%list
        ∧ Method req = "GET"
        ∧ URL_Scheme req = Config.Scheme (config cl)
        ∧ URL_Host req = Config.Address (config cl)
        ∧ Req_Header req = headers cl in
  handed (GetOutputs c stack wire).2 ∧ handed (GetStack c stack wire).2.
Proof.
  cbv zeta. split.
  - destruct (GetOutputs_wire c stack wire) as [-> | ->]; [by left|].
    destruct (doRequest_wire c ("/v1/projects/" +:+ stack +:+ "/outputs/") wire)
      as [-> | (cl & -> & ->)]; [by left|].
    right. exists cl, (request cl ("/v1/projects/" +:+ stack +:+ "/outputs/")). done.
  - destruct (GetStack_wire c stack wire) as [-> | ->]; [by left|].
    destruct (doRequest_wire c ("/v1/projects/" +:+ stack +:+ "/") wire)
      as [-> | (cl & -> & ->)]; [by left|].
    right. exists cl, (request cl ("/v1/projects/" +:+ stack +:+ "/")). done.
Qed.

(** X6: failures on the way to the server are handed to the caller as they
    are. For a stack name that passes validation, a path that
    [http.NewRequest] refuses gives [RequestError] with nothing sent, also
    on a [nil] client; and a request the transport fails on gives
    [TransportError] with the transport's message, the request having been
    sent. *)
Theorem request_failures_pass_through `{GoLib} (stack : string)
    (wire : list Request) :
  validateStackName stack = None →
  let outputs_path := "/v1/projects/" +:+ stack +:+ "/outputs/" in
  let stack_path := "/v1/projects/" +:+ stack +:+ "/" in
  (∀ c msg, NewRequest_error outputs_path = Some msg →
     GetOutputs c stack wire = (Err (RequestError msg), wire))
  ∧ (∀ c msg, NewRequest_error stack_path = Some msg →
       GetStack c stack wire = (Err (RequestError msg), wire))
  ∧ (∀ cl h msg,
       Config.HttpClient (config cl) = Some h →
       NewRequest_error outputs_path = None →
       Do h wire (request cl outputs_path) = inl msg →
       GetOutputs (Some cl) stack wire
       = (Err (TransportError msg), (wire ++ [request cl outputs_path])%list))
  ∧ (∀ cl h msg,
       Config.HttpClient (config cl) = Some h →
       NewRequest_error stack_path = None →
       Do h wire (request cl stack_path) = inl msg →
       GetStack (Some cl) stack wire
       = (Err (TransportError msg), (wire ++ [request cl stack_path])%list)).
Proof.
  intros Hv. cbv zeta.
  unfold GetOutputs, GetStack, doRequest, send, fail, mbind, M_bind.
  rewrite Hv. repeat split.
  - intros c msg ->. done.
  - intros c msg ->. done.
  - intros cl h msg -> -> ->. done.
  - intros cl h msg -> -> ->. done.
Qed.

Lemma request_failures_pass_through_witness :
  @GetOutputs strictLib None "a%zz/b" [] = (Err (RequestError "invalid URL escape"), [])
  ∧ (@GetStack sampleLib (Some (sample_client unreachable)) "backend/load-balancers" []).1
    = Err (TransportError "connection refused").
Proof.
  split.
  - apply (proj1 (@request_failures_pass_through strictLib "a%zz/b" [] eq_refl)).
    reflexivity.
  - rewrite (proj2 (proj2 (proj2
               (@request_failures_pass_through sampleLib "backend/load-balancers" []
                  eq_refl)))
               (sample_client unreachable) unreachable "connection refused"
               eq_refl eq_refl eq_refl).
    reflexivity.
Defined.

(** ** What the decoder makes of a body *)

Section MoreDecodeFacts.
Context `{GoLib}.

Lemma field_of_Output key :
  field_of ["Value"; "Deprecated"; "Warning"] key =
  if decide (foldName key = "VALUE") then Some "Value"
  else if decide (foldName key = "DEPRECATED") then Some "Deprecated"
  else if decide (foldName key = "WARNING") then Some "Warning"
  else None.
Proof.
  unfold field_of. cbn [List.find].
  destruct (String.eqb_spec key "Value") as [->|_]; [done|].
  destruct (String.eqb_spec key "Deprecated") as [->|_]; [done|].
  destruct (String.eqb_spec key "Warning") as [->|_]; [done|].
  change (foldName "Value") with "VALUE".
  change (foldName "Deprecated") with "DEPRECATED".
  change (foldName "Warning") with "WARNING".
  destruct (String.eqb_spec (foldName key) "VALUE");
    destruct (String.eqb_spec (foldName key) "DEPRECATED");
    destruct (String.eqb_spec (foldName key) "WARNING");
    repeat case_decide; congruence.
Qed.

Lemma store_Output_member_other o key j :
  foldName key ∉ ["VALUE"; "DEPRECATED"; "WARNING"] →
  store_Output_member o (key, j) = (o, []).
Proof.
  intros Hk. unfold store_Output_member. cbn [fst snd].
  rewrite field_of_Output.
  repeat case_decide; try done; exfalso; apply Hk; set_solver.
Qed.

Lemma foldl_store_filter members acc :
  foldl (λ acc kv, let r := store_Output_member acc.1 kv in
                   (r.1, (acc.2 ++ r.2)%list)) acc members
  = foldl (λ acc kv, let r := store_Output_member acc.1 kv in
                     (r.1, (acc.2 ++ r.2)%list)) acc
      (filter (λ kv, foldName kv.1 ∈ ["VALUE"; "DEPRECATED"; "WARNING"]) members).
Proof.
  revert acc. induction members as [|[k j] members IH]; intros acc; [done|].
  rewrite filter_cons. cbn [fst]. case_decide as Hk; cbn [foldl].
  - apply IH.
  - rewrite (store_Output_member_other _ _ _ Hk). cbn [fst snd].
    rewrite app_nil_r. rewrite <- IH. by destruct acc.
Qed.

(** The errors gathered so far are kept. *)
Lemma foldl_store_errors members acc :
  acc.2 ≠ [] →
  (foldl (λ acc kv, let r := store_Output_member acc.1 kv in
                    (r.1, (acc.2 ++ r.2)%list)) acc members).2 ≠ [].
Proof.
  revert acc. induction members as [|kv members IH]; intros acc Hacc; [done|].
  cbn [foldl]. apply IH. cbn [snd]. by destruct acc.2.
Qed.

Lemma store_string_mistyped old j :
  (∀ s, j ≠ JString s) → j ≠ JNull → (store_string old j).2 ≠ [].
Proof. intros Hs Hn. destruct j; try done. by specialize (Hs s). Qed.

Lemma unmarshal_Output_mistyped ms name j :
  (name, j) ∈ ms →
  foldName name = "DEPRECATED" ∨ foldName name = "WARNING" →
  (∀ s, j ≠ JString s) → j ≠ JNull →
  (unmarshal_Output (JObject ms)).2 ≠ [].
Proof.
  intros Hin Hname Hs Hn. unfold unmarshal_Output.
  generalize (mkOutput GoNil "" "", @nil json_error).
  induction ms as [|kv ms IH]; intros acc; [by apply elem_of_nil in Hin|].
  apply elem_of_cons in Hin as [<-|Hin]; cbn [foldl]; [|by apply IH].
  apply foldl_store_errors. cbn [snd].
  unfold store_Output_member. cbn [fst snd]. rewrite field_of_Output.
  pose proof (store_string_mistyped (Deprecated acc.1) j Hs Hn).
  pose proof (store_string_mistyped (Warning acc.1) j Hs Hn).
  destruct Hname as [Hname|Hname]; rewrite Hname;
    repeat case_decide; try done; cbn [snd];
    intros [_ ?]%app_eq_nil; done.
Qed.

Lemma concat_not_nil {A} (ls : list (list A)) l :
  l ∈ ls → l ≠ [] → concat ls ≠ [].
Proof.
  intros Hin Hl. induction ls as [|l' ls IH]; [by apply elem_of_nil in Hin|].
  apply elem_of_cons in Hin as [<-|Hin]; cbn [concat].
  - by intros [? _]%app_eq_nil.
  - intros [_ ?]%app_eq_nil. by apply IH.
Qed.

(** A later member of the same name replaces an earlier one. *)
Lemma map_of_members_lookup {A} (l1 l2 : list (string * A)) k x :
  k ∉ l2.*1 → map_of_members (l1 ++ (k, x) :: l2) !! k = Some x.
Proof.
  unfold map_of_members. rewrite foldl_app. cbn [foldl fst snd].
  generalize (foldl (λ m kv, <[kv.1:=kv.2]> m) (∅ : gmap string A) l1).
  intros m Hk.
  assert (Hm : <[k:=x]> m !! k = Some x) by apply lookup_insert_eq.
  revert Hm. generalize (<[k:=x]> m). clear m.
  induction l2 as [|[k' x'] l2 IH]; intros m Hm; [done|].
  rewrite fmap_cons, not_elem_of_cons in Hk. destruct Hk as [Hne Hk].
  cbn [foldl fst snd]. apply IH; [done|]. by rewrite lookup_insert_ne.
Qed.

Lemma map_of_members_keys {A} (l : list (string * A)) k :
  is_Some (map_of_members l !! k) ↔ k ∈ l.*1.
Proof.
  unfold map_of_members.
  assert (Hgen : ∀ m : gmap string A,
            is_Some (foldl (λ m kv, <[kv.1:=kv.2]> m) m l !! k)
            ↔ is_Some (m !! k) ∨ k ∈ l.*1).
  { induction l as [|[k' x'] l IH]; intros m; cbn [foldl fst snd].
    - rewrite fmap_nil, elem_of_nil. tauto.
    - rewrite IH, fmap_cons, elem_of_cons. cbn [fst].
      rewrite lookup_insert_is_Some.
      destruct (decide (k' = k)) as [->|]; intuition congruence. }
  rewrite Hgen, lookup_empty, is_Some_alt. tauto.
Qed.

Lemma fmap_keys {A B} (f : A → B) (l : list (string * A)) :
  ((λ kv, (kv.1, f kv.2)) <$> l).*1 = l.*1.
Proof. induction l as [|[k x] l IH]; [done|]. cbn. by f_equal. Qed.

Lemma unmarshal_members_fst (l : list (string * json)) :
  map fst (map (λ kv, let r := unmarshal_Output kv.2 in ((kv.1, r.1), r.2)) l)
  = (λ kv, (kv.1, (unmarshal_Output kv.2).1)) <$> l.
Proof. induction l as [|kv l IH]; [done|]. cbn. by f_equal. Qed.

End MoreDecodeFacts.

Section DecodeSuccess.
Context `{GoLib}.

Lemma valueInterface_fit : ∀ j, numbers_fit j = true → (valueInterface j).2 = [].
Proof.
  fix IH 1. intros [| b | lit | s | elems | members];
    cbn [valueInterface numbers_fit snd]; try done.
  - by intros ->.
  - induction elems as [|e elems IHe]; [done|].
    cbn [forallb map concat]. intros [He Hes]%andb_true_iff.
    by rewrite (IH e He), (IHe Hes).
  - induction members as [|[k v] members IHm]; [done|].
    cbn [forallb map concat snd]. intros [Hv Hvs]%andb_true_iff.
    by rewrite (IH v Hv), (IHm Hvs).
Qed.

Lemma store_string_typed old j :
  (∃ s, j = JString s) ∨ j = JNull → (store_string old j).2 = [].
Proof. by intros [[s ->] | ->]. Qed.

Lemma unmarshal_Output_typed ms :
  (∀ name j, (name, j) ∈ ms → foldName name = "VALUE" → numbers_fit j = true) →
  (∀ name j, (name, j) ∈ ms →
     foldName name = "DEPRECATED" ∨ foldName name = "WARNING" →
     (∃ s, j = JString s) ∨ j = JNull) →
  (unmarshal_Output (JObject ms)).2 = [].
Proof.
  intros Hval Hms. unfold unmarshal_Output.
  assert (Hgen : ∀ acc : Output * list json_error, acc.2 = [] →
            (foldl (λ acc kv, let r := store_Output_member acc.1 kv in
                              (r.1, (acc.2 ++ r.2)%list)) acc ms).2 = []);
    [|by apply Hgen].
  induction ms as [|[name j] ms IH]; intros acc Hacc; [done|].
  cbn [foldl]. apply IH.
  - intros name' j' Hin. apply Hval. by apply elem_of_cons; right.
  - intros name' j' Hin. apply Hms. by apply elem_of_cons; right.
  - cbn [snd]. rewrite Hacc. cbn [app].
    unfold store_Output_member. cbn [fst snd]. rewrite field_of_Output.
    assert (Hj : foldName name = "DEPRECATED" ∨ foldName name = "WARNING" →
                 ∀ old, (store_string old j).2 = []).
    { intros Hn old. apply store_string_typed, (Hms name j); [|done].
      by apply elem_of_cons; left. }
    assert (Hv : foldName name = "VALUE" → (valueInterface j).2 = []).
    { intros Hn. apply valueInterface_fit, (Hval name j); [|done].
      by apply elem_of_cons; left. }
    repeat case_decide; cbn [snd]; auto.
Qed.

End DecodeSuccess.

(** X7: of the members of an output's JSON object, only those named
    [value], [deprecated] and [warning], in any letter case, are read: the
    others can be struck out without changing what is decoded or which
    errors are reported. *)
Theorem unmarshal_Output_reads_three_members `{GoLib}
    (members : list (string * json)) :
  unmarshal_Output (JObject members)
  = unmarshal_Output
      (JObject (filter (λ kv, foldName kv.1 ∈ ["VALUE"; "DEPRECATED"; "WARNING"])
                  members)).
Proof. unfold unmarshal_Output. apply foldl_store_filter. Qed.

(** X8: a 200 response whose body is the JSON [null] is not the absent
    result: [GetOutputs] returns an empty set of outputs. *)
Theorem GetOutputs_null_body `{GoLib} (c : option Client) (stack : string)
    (wire wire' : list Request) (resp : Response) :
  validateStackName stack = None →
  doRequest c ("/v1/projects/" +:+ stack +:+ "/outputs/") wire = (Ok resp, wire') →
  StatusCode resp = 200 →
  json_scan (Body resp) = inr JNull →
  GetOutputs c stack wire = (Ok (Some ∅), wire').
Proof.
  intros Hv Hd Hs Hj. rewrite (GetOutputs_answered _ _ _ _ resp Hv Hd), Hs.
  cbn [Z.eqb Pos.eqb]. unfold Decode_Outputs. by rewrite Hj.
Qed.

Lemma GetOutputs_null_body_witness :
  (@GetOutputs (scanLib [("null", JNull)])
     (Some (sample_client (always 200 "null"))) "backend/load-balancers" []).1
  = Ok (Some ∅).
Proof.
  by rewrite (@GetOutputs_null_body (scanLib [("null", JNull)])
                (Some (sample_client (always 200 "null"))) "backend/load-balancers"
                [] _ (mkResponse 200 "null") eq_refl eq_refl eq_refl eq_refl).
Defined.

(** X9: one output whose [deprecated] or [warning] member is neither a
    string nor [null] makes the whole of [GetOutputs] fail with a
    [DecodeError]: no output of the body is returned. *)
Theorem GetOutputs_mistyped_notice_fails `{GoLib} (c : option Client)
    (stack : string) (wire wire' : list Request) (resp : Response)
    (members : list (string * json)) (k : string) (ms : list (string * json))
    (name : string) (j : json) :
  validateStackName stack = None →
  doRequest c ("/v1/projects/" +:+ stack +:+ "/outputs/") wire = (Ok resp, wire') →
  StatusCode resp = 200 →
  json_scan (Body resp) = inr (JObject members) →
  (k, JObject ms) ∈ members →
  (name, j) ∈ ms →
  foldName name = "DEPRECATED" ∨ foldName name = "WARNING" →
  (∀ s, j ≠ JString s) → j ≠ JNull →
  ∃ e, GetOutputs c stack wire = (Err (DecodeError e), wire').
Proof.
  intros Hv Hd Hs Hj Hk Hn Hname Hstr Hnull.
  rewrite (GetOutputs_answered _ _ _ _ resp Hv Hd), Hs. cbn [Z.eqb Pos.eqb].
  unfold Decode_Outputs. rewrite Hj. cbn [unmarshal_Outputs snd].
  destruct (concat _) as [|e es] eqn:Hc; [|by exists e].
  exfalso. revert Hc.
  apply (concat_not_nil _ (unmarshal_Output (JObject ms)).2).
  - apply list_elem_of_fmap. eexists. split; [|apply list_elem_of_fmap; eauto].
    done.
  - by apply (unmarshal_Output_mistyped ms name j).
Qed.

Lemma GetOutputs_mistyped_notice_fails_witness :
  ∃ e,
    @GetOutputs
      (scanLib [("body",
                 JObject [("hostname", JObject [("value", JString "h")]);
                          ("port", JObject [("value", JString "80");
                                            ("deprecated", JBool true)])])])
      (Some (sample_client (always 200 "body"))) "backend/load-balancers" []
    = (Err (DecodeError e),
       [request (sample_client (always 200 "body"))
          "/v1/projects/backend/load-balancers/outputs/"]).
Proof.
  apply (@GetOutputs_mistyped_notice_fails _ _ _ _ _ (mkResponse 200 "body")
           [("hostname", JObject [("value", JString "h")]);
            ("port", JObject [("value", JString "80"); ("deprecated", JBool true)])]
           "port" [("value", JString "80"); ("deprecated", JBool true)]
           "deprecated" (JBool true));
    try reflexivity; try discriminate.
  - apply elem_of_cons; right. apply elem_of_cons; by left.
  - apply elem_of_cons; right. apply elem_of_cons; by left.
  - by left.
Defined.

(** X10: when a body that is a JSON object decodes, the outputs have
    exactly the names of its members, and for a name that occurs more than
    once the last member of that name is the one decoded. *)
Theorem Decode_Outputs_members `{GoLib} (body : string)
    (members : list (string * json)) (outputs : Outputs) :
  json_scan body = inr (JObject members) →
  Decode_Outputs body = inr outputs →
  (∀ k, is_Some (outputs !! k) ↔ k ∈ members.*1)
  ∧ (∀ l1 k j l2,
       members = (l1 ++ (k, j) :: l2)%list → k ∉ l2.*1 →
       outputs !! k = Some (unmarshal_Output j).1).
Proof.
  intros Hj. unfold Decode_Outputs. rewrite Hj. cbn [unmarshal_Outputs fst snd].
  destruct (concat _); [|done]. intros [= <-].
  rewrite unmarshal_members_fst.
  assert (Hkeys : ∀ l : list (string * json),
            ((λ kv, (kv.1, (unmarshal_Output kv.2).1)) <$> l).*1 = l.*1)
    by exact (fmap_keys (λ j, (unmarshal_Output j).1)).
  split.
  - intros k. by rewrite map_of_members_keys, Hkeys.
  - intros l1 k j l2 -> Hk. rewrite fmap_app, fmap_cons. cbn [fst snd].
    apply map_of_members_lookup. by rewrite Hkeys.
Qed.

Lemma Decode_Outputs_members_witness :
  ∃ outputs,
    @Decode_Outputs
      (scanLib [("body",
                 JObject [("port", JObject [("value", JString "80")]);
                          ("port", JObject [("value", JString "8080")])])])
      "body" = inr outputs
    ∧ outputs !! "port" = Some (mkOutput (GoString "8080") "" "")
    ∧ outputs !! "host" = None.
Proof.
  eexists. split; [reflexivity|].
  destruct (@Decode_Outputs_members
              (scanLib [("body",
                         JObject [("port", JObject [("value", JString "80")]);
                                  ("port", JObject [("value", JString "8080")])])])
              "body" _ _ eq_refl eq_refl) as [Hkeys Hlast].
  split.
  - apply (Hlast [("port", JObject [("value", JString "80")])] "port"
             (JObject [("value", JString "8080")]) []); [reflexivity|].
    apply not_elem_of_nil.
  - apply eq_None_not_Some. rewrite Hkeys. cbn.
    rewrite !elem_of_cons, elem_of_nil. intros [?|[?|[]]]; discriminate.
Defined.

(** X11: the type of a [value] member never makes [GetOutputs] fail. A
    body decodes whenever it is a JSON object whose members are objects in
    which every [deprecated] and [warning] member is a string or [null] and
    every number within a [value] member is one [strconv.ParseFloat] takes;
    numbers in members that [Output] has no field for are not looked at. *)
Theorem GetOutputs_decodes_any_value `{GoLib} (c : option Client)
    (stack : string) (wire wire' : list Request) (resp : Response)
    (members : list (string * json)) :
  validateStackName stack = None →
  doRequest c ("/v1/projects/" +:+ stack +:+ "/outputs/") wire = (Ok resp, wire') →
  StatusCode resp = 200 →
  json_scan (Body resp) = inr (JObject members) →
  (∀ k v, (k, v) ∈ members →
     ∃ ms, v = JObject ms
           ∧ (∀ name j, (name, j) ∈ ms →
                foldName name = "VALUE" → numbers_fit j = true)
           ∧ (∀ name j, (name, j) ∈ ms →
                foldName name = "DEPRECATED" ∨ foldName name = "WARNING" →
                (∃ s, j = JString s) ∨ j = JNull)) →
  ∃ outputs, GetOutputs c stack wire = (Ok (Some outputs), wire').
Proof.
  intros Hv Hd Hs Hj Hms.
  rewrite (GetOutputs_answered _ _ _ _ resp Hv Hd), Hs. cbn [Z.eqb Pos.eqb].
  unfold Decode_Outputs. rewrite Hj. cbv zeta.
  assert (Hc : (unmarshal_Outputs (JObject members)).2 = []).
  { clear Hj. cbn [unmarshal_Outputs snd].
    induction members as [|[k v] members IH]; [done|].
    cbn [map concat fst snd].
    rewrite IH by (intros k' v' Hin; apply (Hms k' v'); by apply elem_of_cons; right).
    destruct (Hms k v) as (ms & -> & Hval & Hok); [by apply elem_of_cons; left|].
    by rewrite (unmarshal_Output_typed ms Hval Hok). }
  rewrite Hc. eauto.
Qed.

(** X11 at work, with a [strconv.ParseFloat] that fails on [1e999]: the
    number [3] of the [value] member is taken, and the [1e999] of a member
    that [Output] has no field for does no harm. *)
Lemma GetOutputs_decodes_any_value_witness :
  ∃ outputs,
    @GetOutputs
      (rangeLib [("body",
                  JObject [("hostname", JObject [("value", JString "h")]);
                           ("count", JObject [("value", JArray [JNumber "3"; JBool true]);
                                              ("limit", JNumber "1e999")])])])
      (Some (sample_client (always 200 "body"))) "backend/load-balancers" []
    = (Ok (Some outputs),
       [request (sample_client (always 200 "body"))
          "/v1/projects/backend/load-balancers/outputs/"])
    ∧ Value <$> outputs !! "count"
      = Some (GoSlice [GoFloat64 "3"; GoBool true]).
Proof.
  destruct (@GetOutputs_decodes_any_value
              (rangeLib [("body",
                          JObject [("hostname", JObject [("value", JString "h")]);
                                   ("count",
                                    JObject [("value", JArray [JNumber "3"; JBool true]);
                                             ("limit", JNumber "1e999")])])])
              (Some (sample_client (always 200 "body"))) "backend/load-balancers" []
              [request (sample_client (always 200 "body"))
                 "/v1/projects/backend/load-balancers/outputs/"]
              (mkResponse 200 "body")
              [("hostname", JObject [("value", JString "h")]);
               ("count", JObject [("value", JArray [JNumber "3"; JBool true]);
                                  ("limit", JNumber "1e999")])]
              eq_refl eq_refl eq_refl eq_refl) as [outputs Hget].
  - intros k v Hin.
    repeat (apply elem_of_cons in Hin as [[= -> ->]|Hin]);
      try (by apply elem_of_nil in Hin);
      (eexists; split; [reflexivity|]; split; intros name j Hm Hname;
       repeat (apply elem_of_cons in Hm as [[= -> ->]|Hm]);
       try (by apply elem_of_nil in Hm);
       try reflexivity; exfalso; revert Hname; clear;
       try (intros [?|?]); discriminate).
  - exists outputs. split; [exact Hget|].
    revert Hget. vm_compute. by intros [= <-].
Defined.

(** * Further properties of the data source *)

Section MoreReadFacts.
Context `{GoLib}.
Variable Sensitive : Output → bool.

Lemma Append_app (diags a b : Diagnostics) :
  Append diags (a ++ b) = Append (Append diags a) b.
Proof. unfold Append. apply foldl_app. Qed.

(** One turn of the loop appends the notices of its output. *)
Lemma step_notices acc k v :
  (Read_output Sensitive acc (k, v)).2 = Append acc.2 (notices k v).
Proof.
  unfold Read_output, notices, AddWarning, ignored. cbn [fst snd].
  destruct (Value v), (nonempty (Deprecated v)); cbn [fst snd app]; try done;
    by rewrite ?(Append_app _ [_] [_]), ?(Append_app _ [_] [_; _]).
Qed.

Lemma loop_notices l acc d :
  d ∈ (foldl (Read_output Sensitive) acc l).2
  ↔ d ∈ acc.2 ∨ ∃ k v, (k, v) ∈ l ∧ d ∈ notices k v.
Proof.
  revert acc. induction l as [|[k v] l IH]; intros acc; cbn [foldl].
  - split; [auto|]. intros [?|(k & v & Hin & _)]; [done|].
    by apply elem_of_nil in Hin.
  - rewrite IH, step_notices, elem_of_Append. split.
    + intros [[?|?]|(k' & v' & Hin & Hd)]; auto.
      * right. exists k, v. split; [by apply elem_of_cons; left|done].
      * right. exists k', v'. split; [by apply elem_of_cons; right|done].
    + intros [?|(k' & v' & Hin & Hd)]; auto.
      apply elem_of_cons in Hin as [[= -> ->]|Hin]; eauto 10.
Qed.

Lemma loop_lookup l acc k :
  NoDup l.*1 →
  (foldl (Read_output Sensitive) acc l).1 !! k
  = match list_to_map (M := gmap string Output) l !! k with
    | Some v => match string_output Sensitive v with
                | Some o => Some o
                | None => acc.1 !! k
                end
    | None => acc.1 !! k
    end.
Proof.
  intros Hnd.
  destruct (list_to_map (M := gmap string Output) l !! k) as [v|] eqn:Hl.
  - apply elem_of_list_to_map in Hl; [|done]. unfold string_output.
    destruct (Value v) eqn:Hv;
      try (apply (loop_other Sensitive l acc k v Hnd Hl); by rewrite Hv).
    by apply (loop_string Sensitive l acc k v).
  - apply not_elem_of_list_to_map in Hl. by apply loop_keep.
Qed.

End MoreReadFacts.

Lemma elem_of_notices `{GoLib} d k v :
  d ∈ notices k v ↔
  ((∀ s, Value v ≠ GoString s) ∧ d = ignored k v)
  ∨ (Deprecated v ≠ ""
     ∧ (d = mkDiagnostic SeverityWarning ("Output " +:+ k +:+ " is deprecated")
              (Deprecated v)
        ∨ d = mkDiagnostic SeverityWarning ("The output " +:+ k +:+ " has a warning")
                (Warning v))).
Proof.
  unfold notices, nonempty. rewrite elem_of_app.
  assert (Hv : d ∈ match Value v with GoString _ => [] | _ => [ignored k v] end
               ↔ (∀ s, Value v ≠ GoString s) ∧ d = ignored k v).
  { destruct (Value v) eqn:Hval; rewrite ?list_elem_of_singleton, ?elem_of_nil;
      try (split; [by intros ->|by intros [_ ->]]).
    split; [done|]. intros [Hs _]. by specialize (Hs s). }
  rewrite Hv. clear Hv.
  destruct (String.eqb_spec (Deprecated v) "") as [He|Hne]; cbn [negb].
  - rewrite elem_of_nil. tauto.
  - rewrite !elem_of_cons, elem_of_nil. tauto.
Qed.

Section ReadPaths.
Context `{GoLib}.
Variable Sensitive : Output → bool.
Variable range : Outputs → list (string * Output).
Variable State_Set : OutputsDataSourceModel.t → Diagnostics.

(** What [Read] does once the outputs are there, whatever the order of the
    loop. *)
Lemma Read_retrieved d req resp wire wire' (outputs : Outputs) :
  (∀ m, range m ≡ₚ map_to_list m) →
  HasError (Append (Diags resp) (Config_Get req).1) = false →
  GetOutputs (client d)
    (ValueString (OutputsDataSourceModel.Stack (Config_Get req).2)) wire
  = (Ok (Some outputs), wire') →
  let data :=
    OutputsDataSourceModel.mk
      (StringValue (ValueString (OutputsDataSourceModel.Stack (Config_Get req).2)))
      (OutputsDataSourceModel.Stack (Config_Get req).2)
      (MapValue (omap (string_output Sensitive) outputs)) in
  ∃ diags,
    Read Sensitive range State_Set d req resp wire
    = (Ok (mkReadResponse (Append diags (State_Set data))
             (if HasError (State_Set data) then State resp else Some data)), wire')
    ∧ HasError diags = false
    ∧ ∀ e, e ∈ diags ↔
           e ∈ Diags resp ∨ e ∈ (Config_Get req).1
           ∨ ∃ k v, outputs !! k = Some v ∧ e ∈ notices k v.
Proof.
  intros Hrange Hclean Hget data.
  set (diags := Append (Diags resp) (Config_Get req).1) in *.
  set (r := foldl (Read_output Sensitive) (∅, diags) (range outputs)).
  assert (Hnd : NoDup (range outputs).*1).
  { rewrite Hrange. apply NoDup_fst_map_to_list. }
  assert (Hmap : r.1 = omap (string_output Sensitive) outputs).
  { apply map_eq. intros k. unfold r. rewrite (loop_lookup Sensitive) by done.
    rewrite (list_to_map_proper _ (map_to_list outputs)), list_to_map_to_list
      by done.
    cbn [fst]. rewrite lookup_omap, lookup_empty.
    destruct (outputs !! k) as [v|]; cbn; [|done].
    by destruct (string_output Sensitive v). }
  exists r.2. split; [|split].
  - unfold Read. fold diags. rewrite Hclean, Hget. fold r.
    cbn [OutputsDataSourceModel.Id OutputsDataSourceModel.Stack].
    rewrite Hmap. reflexivity.
  - apply not_true_is_false. intros (e & He & Hsev)%HasError_true.
    apply (loop_diags Sensitive) in He as [He|Hw]; [|congruence].
    apply not_true_iff_false in Hclean. apply Hclean, HasError_true. eauto.
  - intros e. unfold r. rewrite (loop_notices Sensitive). cbn [snd].
    unfold diags. rewrite elem_of_Append.
    setoid_rewrite Hrange. setoid_rewrite elem_of_map_to_list. tauto.
Qed.

End ReadPaths.

(** X12: when the configuration was read without error and the stack
    attribute is not a valid stack name (a null or unknown attribute reads
    as the empty name, which is not one), [Read] sends no request, also with
    no client configured, leaves the state as it was, and reports the error
    [Failed to read outputs of "stack"] whose detail names the stack. *)
Theorem Read_rejects_invalid_stack_name `{GoLib}
    (Sensitive : Output → bool)
    (range : Outputs → list (string * Output))
    (State_Set : OutputsDataSourceModel.t → Diagnostics)
    (d : OutputsDataSource) (req : ReadRequest) (resp : ReadResponse)
    (wire : list Request) :
  let stack := ValueString (OutputsDataSourceModel.Stack (Config_Get req).2) in
  HasError (Append (Diags resp) (Config_Get req).1) = false →
  validateStackName stack ≠ None →
  ∃ resp',
    Read Sensitive range State_Set d req resp wire = (Ok resp', wire)
    ∧ mkDiagnostic SeverityError ("Failed to read outputs of " +:+ Quote "stack")
        (Quote stack +:+ " is not a valid stack name")
      ∈ Diags resp'
    ∧ State resp' = State resp.
Proof.
  intros stack Hclean Hv. unfold Read. rewrite Hclean.
  fold stack. rewrite (GetOutputs_invalid _ _ _ Hv).
  eexists. split; [reflexivity|]. split; [|done].
  unfold AddError. apply elem_of_Append. right. by apply list_elem_of_singleton.
Qed.

Lemma Read_rejects_invalid_stack_name_witness :
  ∃ resp',
    @Read sampleLib (λ _, false) map_to_list (λ _, [])
      (mkOutputsDataSource None)
      (mkReadRequest
         ([], OutputsDataSourceModel.mk StringNull (StringValue "hello") MapNull))
      (mkReadResponse [] None) []
    = (Ok resp', [])
    ∧ mkDiagnostic SeverityError (dquote "Failed to read outputs of 'stack'")
        (dquote "'hello' is not a valid stack name")
      ∈ Diags resp'
    ∧ State resp' = None.
Proof.
  apply (@Read_rejects_invalid_stack_name sampleLib (λ _, false) map_to_list (λ _, [])
           (mkOutputsDataSource None)
           (mkReadRequest
              ([], OutputsDataSourceModel.mk StringNull (StringValue "hello") MapNull))
           (mkReadResponse [] None) []); [reflexivity|discriminate].
Defined.

(** X13: when the server answers 404, [Read] reports the error
    [Unknown stack], whose detail names the stack, and leaves the state as
    it was. *)
Theorem Read_unknown_stack `{GoLib}
    (Sensitive : Output → bool)
    (range : Outputs → list (string * Output))
    (State_Set : OutputsDataSourceModel.t → Diagnostics)
    (d : OutputsDataSource) (cl : Client) (h : HttpClient)
    (req : ReadRequest) (resp : ReadResponse) (wire : list Request)
    (answer : Response) :
  let stack := ValueString (OutputsDataSourceModel.Stack (Config_Get req).2) in
  let path := "/v1/projects/" +:+ stack +:+ "/outputs/" in
  HasError (Append (Diags resp) (Config_Get req).1) = false →
  validateStackName stack = None →
  client d = Some cl →
  Config.HttpClient (config cl) = Some h →
  NewRequest_error path = None →
  Do h wire (request cl path) = inr answer →
  StatusCode answer = 404 →
  ∃ resp',
    Read Sensitive range State_Set d req resp wire
    = (Ok resp', (wire ++ [request cl path])%list)
    ∧ mkDiagnostic SeverityError "Unknown stack"
        ("No stack named " +:+ Quote stack +:+ " could be found")
      ∈ Diags resp'
    ∧ State resp' = State resp.
Proof.
  intros stack path Hclean Hv Hc Hh Hp Hd Hs. unfold Read. rewrite Hclean.
  fold stack. rewrite Hc.
  rewrite (GetOutputs_answered _ _ _ _ answer Hv
             (doRequest_answered _ _ _ _ _ Hh Hp Hd)), Hs.
  cbn [Z.eqb Pos.eqb]. eexists. split; [reflexivity|]. split; [|done].
  unfold AddError. apply elem_of_Append. right. by apply list_elem_of_singleton.
Qed.

Lemma Read_unknown_stack_witness :
  ∃ resp',
    (@Read sampleLib (λ _, false) map_to_list (λ _, [])
       (mkOutputsDataSource (Some (sample_client (always 404 ""))))
       (mkReadRequest
          ([], OutputsDataSourceModel.mk StringNull (StringValue "hello/world") MapNull))
       (mkReadResponse [] None) []).1
    = Ok resp'
    ∧ mkDiagnostic SeverityError "Unknown stack"
        (dquote "No stack named 'hello/world' could be found")
      ∈ Diags resp'
    ∧ State resp' = None.
Proof.
  destruct (@Read_unknown_stack sampleLib (λ _, false) map_to_list (λ _, [])
              (mkOutputsDataSource (Some (sample_client (always 404 ""))))
              (sample_client (always 404 "")) (always 404 "")
              (mkReadRequest
                 ([], OutputsDataSourceModel.mk StringNull
                        (StringValue "hello/world") MapNull))
              (mkReadResponse [] None) [] (mkResponse 404 "")
              eq_refl eq_refl eq_refl eq_refl eq_refl eq_refl eq_refl)
    as (resp' & Hread & Hdiag & Hstate).
  exists resp'. rewrite Hread. done.
Defined.

(** X14: whenever the response of [Read] holds an error, the state is the
    one it had before the call: nothing is stored on a failed read,
    whatever the order of the loop and whatever the transport answered. *)
Theorem Read_error_keeps_state `{GoLib}
    (Sensitive : Output → bool)
    (range : Outputs → list (string * Output))
    (State_Set : OutputsDataSourceModel.t → Diagnostics)
    (d : OutputsDataSource) (req : ReadRequest) (resp resp' : ReadResponse)
    (wire wire' : list Request) :
  Read Sensitive range State_Set d req resp wire = (Ok resp', wire') →
  HasError (Diags resp') = true →
  State resp' = State resp.
Proof.
  unfold Read.
  destruct (HasError (Append (Diags resp) (Config_Get req).1)) eqn:Hclean.
  { by intros [= <- <-]. }
  destruct (GetOutputs _ _ wire) as [[[outputs|]|err|] w]; [| | |done];
    intros [= <- <-]; try done.
  cbn [Diags State]. rewrite HasError_Append.
  set (r := foldl _ _ _).
  assert (Hno : HasError r.2 = false).
  { apply not_true_is_false. intros (e & He & Hsev)%HasError_true.
    apply (loop_diags Sensitive) in He as [He|Hw]; [|congruence].
    apply not_true_iff_false in Hclean. apply Hclean, HasError_true. eauto. }
  rewrite Hno. cbn [orb]. by intros ->.
Qed.

Lemma Read_error_keeps_state_witness :
  ∃ resp',
    (@Read sampleLib (λ _, false) map_to_list (λ _, [])
       (mkOutputsDataSource (Some (sample_client (always 503 ""))))
       (mkReadRequest
          ([], OutputsDataSourceModel.mk StringNull
                 (StringValue "backend/load-balancers") MapNull))
       (mkReadResponse [] None) []).1
    = Ok resp'
    ∧ HasError (Diags resp') = true
    ∧ State resp' = None.
Proof.
  eexists. split; [reflexivity|]. split; [reflexivity|].
  apply (@Read_error_keeps_state sampleLib (λ _, false) map_to_list (λ _, [])
           (mkOutputsDataSource (Some (sample_client (always 503 ""))))
           (mkReadRequest
              ([], OutputsDataSourceModel.mk StringNull
                     (StringValue "backend/load-balancers") MapNull))
           (mkReadResponse [] None) _ []
           [request (sample_client (always 503 ""))
              "/v1/projects/backend/load-balancers/outputs/"]);
    reflexivity.
Defined.

(** X15: [Read] drops no diagnostic: what the response held before the
    call and what reading the configuration reported are in the response
    after it, on every path. *)
Theorem Read_keeps_diagnostics `{GoLib}
    (Sensitive : Output → bool)
    (range : Outputs → list (string * Output))
    (State_Set : OutputsDataSourceModel.t → Diagnostics)
    (d : OutputsDataSource) (req : ReadRequest) (resp resp' : ReadResponse)
    (wire wire' : list Request) (e : Diagnostic) :
  Read Sensitive range State_Set d req resp wire = (Ok resp', wire') →
  e ∈ Diags resp ∨ e ∈ (Config_Get req).1 →
  e ∈ Diags resp'.
Proof.
  intros Hread He. apply elem_of_Append in He. revert Hread. unfold Read.
  destruct (HasError (Append (Diags resp) (Config_Get req).1)).
  { by intros [= <- <-]. }
  destruct (GetOutputs _ _ wire) as [[[outputs|]|err|] w]; [| | |done];
    intros [= <- <-]; cbn [Diags]; unfold AddError;
    apply elem_of_Append; left; [|done..].
  by apply (loop_diags Sensitive).
Qed.

Lemma Read_keeps_diagnostics_witness :
  ∃ resp',
    (@Read sampleLib (λ _, false) map_to_list (λ _, [])
       (mkOutputsDataSource (Some (sample_client (always 404 ""))))
       (mkReadRequest
          ([mkDiagnostic SeverityWarning "Deprecated attribute" "use stack"],
           OutputsDataSourceModel.mk StringNull (StringValue "hello/world") MapNull))
       (mkReadResponse [] None) []).1
    = Ok resp'
    ∧ mkDiagnostic SeverityWarning "Deprecated attribute" "use stack" ∈ Diags resp'.
Proof.
  eexists. split; [reflexivity|].
  apply (@Read_keeps_diagnostics sampleLib (λ _, false) map_to_list (λ _, [])
           (mkOutputsDataSource (Some (sample_client (always 404 ""))))
           (mkReadRequest
              ([mkDiagnostic SeverityWarning "Deprecated attribute" "use stack"],
               OutputsDataSourceModel.mk StringNull (StringValue "hello/world") MapNull))
           (mkReadResponse [] None) _ []
           [request (sample_client (always 404 ""))
              "/v1/projects/hello/world/outputs/"]);
    [reflexivity|].
  right. by apply list_elem_of_singleton.
Defined.

(** X16: for a payload that was retrieved, the warnings [Read] adds are
    exactly these: for an output whose value is not a string, the
    [ignored output] warning; for an output whose [Deprecated] text is not
    empty, the warning that it is deprecated and the warning that it has a
    warning, which carries its [Warning] text. Both hang on [Deprecated]:
    an output with an empty [Deprecated] text gets neither, whatever its
    [Warning] text. *)
Theorem Read_notices `{GoLib}
    (Sensitive : Output → bool)
    (range : Outputs → list (string * Output))
    (State_Set : OutputsDataSourceModel.t → Diagnostics)
    (d : OutputsDataSource) (req : ReadRequest) (resp : ReadResponse)
    (wire wire' : list Request) (outputs : Outputs) :
  (∀ m, range m ≡ₚ map_to_list m) →
  HasError (Append (Diags resp) (Config_Get req).1) = false →
  GetOutputs (client d)
    (ValueString (OutputsDataSourceModel.Stack (Config_Get req).2)) wire
  = (Ok (Some outputs), wire') →
  (∀ data, State_Set data = []) →
  ∃ resp',
    Read Sensitive range State_Set d req resp wire = (Ok resp', wire')
    ∧ ∀ e, e ∈ Diags resp' ↔
        e ∈ Diags resp ∨ e ∈ (Config_Get req).1
        ∨ ∃ k v,
            outputs !! k = Some v
            ∧ (((∀ s, Value v ≠ GoString s) ∧ e = ignored k v)
               ∨ (Deprecated v ≠ ""
                  ∧ (e = mkDiagnostic SeverityWarning
                           ("Output " +:+ k +:+ " is deprecated") (Deprecated v)
                     ∨ e = mkDiagnostic SeverityWarning
                             ("The output " +:+ k +:+ " has a warning")
                             (Warning v)))).
Proof.
  intros Hrange Hclean Hget Hset.
  destruct (Read_retrieved Sensitive range State_Set d req resp wire wire' outputs
              Hrange Hclean Hget) as (diags & Hread & _ & Hdiags).
  eexists. split; [exact Hread|].
  intros e. cbn [Diags]. rewrite Hset, elem_of_Append, elem_of_nil, Hdiags.
  setoid_rewrite elem_of_notices. tauto.
Qed.

Lemma Read_notices_witness :
  ∃ resp',
    (@Read
       (scanLib [("body",
                  JObject [("old", JObject [("value", JString "a");
                                            ("deprecated", JString "use new")]);
                           ("new", JObject [("value", JString "b");
                                            ("warning", JString "beta")])])])
       (λ _, false) map_to_list (λ _, [])
       (mkOutputsDataSource (Some (sample_client (always 200 "body"))))
       (mkReadRequest
          ([], OutputsDataSourceModel.mk StringNull
                 (StringValue "backend/load-balancers") MapNull))
       (mkReadResponse [] None) []).1
    = Ok resp'
    ∧ mkDiagnostic SeverityWarning "The output old has a warning" "" ∈ Diags resp'
    ∧ mkDiagnostic SeverityWarning "The output new has a warning" "beta" ∉ Diags resp'.
Proof.
  destruct (@Read_notices
              (scanLib [("body",
                         JObject [("old", JObject [("value", JString "a");
                                                   ("deprecated", JString "use new")]);
                                  ("new", JObject [("value", JString "b");
                                                   ("warning", JString "beta")])])])
              (λ _, false) map_to_list (λ _, [])
              (mkOutputsDataSource (Some (sample_client (always 200 "body"))))
              (mkReadRequest
                 ([], OutputsDataSourceModel.mk StringNull
                        (StringValue "backend/load-balancers") MapNull))
              (mkReadResponse [] None) []
              [request (sample_client (always 200 "body"))
                 "/v1/projects/backend/load-balancers/outputs/"]
              (<["new" := mkOutput (GoString "b") "" "beta"]>
                 (<["old" := mkOutput (GoString "a") "use new" ""]> ∅)))
    as (resp' & Hread & Hdiags).
  - intros m. reflexivity.
  - reflexivity.
  - vm_compute. reflexivity.
  - reflexivity.
  - exists resp'. rewrite Hread. split; [reflexivity|]. split.
    + apply Hdiags. right. right.
      exists "old", (mkOutput (GoString "a") "use new" "").
      split; [reflexivity|]. right. split; [discriminate|]. by right.
    + intros He. apply Hdiags in He as [He|[He|(k & v & Hk & Hcase)]].
      * by apply elem_of_nil in He.
      * by apply elem_of_nil in He.
      * destruct (decide (k = "new")) as [->|Hne].
        -- rewrite lookup_insert_eq in Hk. injection Hk as <-.
           destruct Hcase as [[_ Hc]|[Hc _]]; [discriminate|]. by apply Hc.
        -- rewrite lookup_insert_ne in Hk by done.
           destruct (decide (k = "old")) as [->|Hne'].
           ++ rewrite lookup_insert_eq in Hk. injection Hk as <-.
              destruct Hcase as [[_ Hc]|[_ [Hc|Hc]]]; discriminate.
           ++ by rewrite lookup_insert_ne in Hk.
Defined.



(** * Further properties of the provider *)

Section ProviderFacts.
Context `{GoLib}.

Lemma elem_of_Append_at (d : AttributeDiagnostic) (diags more : AttributeDiagnostics) :
  d ∈ Append_at diags more ↔ d ∈ diags ∨ d ∈ more.
Proof.
  unfold Append_at. revert diags.
  induction more as [|d' more IH]; intros diags; cbn [foldl].
  - rewrite elem_of_nil. tauto.
  - rewrite IH, elem_of_cons. case_decide as Hin.
    + split; [tauto|]. intros [?|[->|?]]; auto.
    + rewrite elem_of_app, list_elem_of_singleton. tauto.
Qed.

Lemma HasError_at_true (diags : AttributeDiagnostics) :
  HasError_at diags = true ↔ ∃ d, d ∈ diags ∧ severity (Plain d) = SeverityError.
Proof.
  unfold HasError_at. rewrite existsb_exists. split.
  - intros (d & Hin & Hd). exists d. split; [by apply list_elem_of_In|].
    by apply bool_decide_eq_true in Hd.
  - intros (d & Hin & Hd). exists d. split; [by apply list_elem_of_In|].
    by apply bool_decide_eq_true.
Qed.

Lemma elem_of_AddAttributeError d diags path summary detail :
  d ∈ AddAttributeError diags path summary detail ↔
  d ∈ diags
  ∨ d = mkAttributeDiagnostic (Some path) (mkDiagnostic SeverityError summary detail).
Proof.
  unfold AddAttributeError. by rewrite elem_of_Append_at, list_elem_of_singleton.
Qed.

Lemma HasError_at_AddAttributeError diags path summary detail :
  HasError_at (AddAttributeError diags path summary detail) = true.
Proof.
  apply HasError_at_true.
  exists (mkAttributeDiagnostic (Some path) (mkDiagnostic SeverityError summary detail)).
  split; [|reflexivity]. apply elem_of_AddAttributeError. by right.
Qed.

Lemma HasError_at_AddError_at diags summary detail :
  HasError_at (AddError_at diags summary detail) = true.
Proof.
  apply HasError_at_true.
  exists (mkAttributeDiagnostic None (mkDiagnostic SeverityError summary detail)).
  split; [|reflexivity]. unfold AddError_at. apply elem_of_Append_at. right.
  by apply list_elem_of_singleton.
Qed.

Lemma NewClient_not_Panic p cfg : (NewClient p cfg).2 ≠ Panic.
Proof.
  destruct (address_cases (layered_address p cfg)) as [Hno|(pre & rest & Ha & Hno)].
  - by rewrite (NewClient_whole _ _ Hno).
  - rewrite (NewClient_cut _ _ _ _ Ha Hno). cbv zeta. by repeat case_match.
Qed.

End ProviderFacts.

Lemma DefaultConfig_Scheme (p : Process) :
  Config.Scheme (DefaultConfig p)
  = if String.eqb (Getenv p "watson_SCHEME") "" then "https"
    else Getenv p "watson_SCHEME".
Proof.
  unfold DefaultConfig, nonempty.
  destruct (String.eqb (Getenv p "watson_SCHEME") "");
    destruct (String.eqb (Getenv p "watson_ADDRESS") "");
    destruct (String.eqb (Getenv p "watson_STACK") ""); reflexivity.
Qed.

(** The configuration the provider hands to [NewClient]. *)
Lemma provider_conf_fields (p : Process) (address scheme stack : string) :
  let conf := DefaultConfig p in
  let conf :=
    if nonempty address
    then Config.mk address (Config.Scheme conf) (Config.Stack conf)
           (Config.HttpClient conf)
    else conf in
  let conf :=
    if nonempty scheme
    then Config.mk (Config.Address conf) scheme (Config.Stack conf)
           (Config.HttpClient conf)
    else conf in
  let conf :=
    if nonempty stack
    then Config.mk (Config.Address conf) (Config.Scheme conf) stack
           (Config.HttpClient conf)
    else conf in
  address ≠ "" → stack ≠ "" →
  layered_address p conf = address
  ∧ layered_stack p conf = stack
  ∧ layered_scheme p conf
    = (if String.eqb scheme "" then
         if String.eqb (Getenv p "watson_SCHEME") "" then "https"
         else Getenv p "watson_SCHEME"
       else scheme).
Proof.
  cbv zeta. intros Ha Hs. unfold nonempty.
  apply String.eqb_neq in Ha, Hs. rewrite Ha, Hs. cbn [negb].
  unfold layered_address, layered_stack, layered_scheme.
  destruct (String.eqb scheme "") eqn:Hsch; cbn [negb];
    cbn [Config.Address Config.Scheme Config.Stack]; rewrite Ha, Hs.
  - split; [done|]. split; [done|]. rewrite DefaultConfig_Scheme.
    destruct (String.eqb_spec (Getenv p "watson_SCHEME") "") as [|Hne]; [done|].
    apply String.eqb_neq in Hne. by rewrite Hne.
  - by rewrite Hsch.
Qed.

Section ConfigureFacts.
Context `{GoLib}.

Lemma HasError_at_if (b : bool) diags path summary detail :
  HasError_at (if b then AddAttributeError diags path summary detail else diags)
  = b || HasError_at diags.
Proof. destruct b; [apply HasError_at_AddAttributeError|done]. Qed.

(** The two ways [Configure] ends: with an error among the diagnostics and
    the response's data as they were, or with a client made by [NewClient]
    from the settled address, scheme and stack. *)
Lemma Configure_cases (p : Process) (req : ProviderRequest) (resp : ProviderResponse) :
  let cfg := (Provider_Config_Get req).2 in
  let address := configured p "watson_ADDRESS" (watsonProviderModel.Address cfg) in
  let scheme := configured p "watson_SCHEME" (watsonProviderModel.Scheme cfg) in
  let stack := configured p "watson_STACK" (watsonProviderModel.Stack cfg) in
  (∃ diags,
     watsonProvider_Configure p req resp
     = Ok (mkProviderResponse diags (DataSourceData resp) (ResourceData resp))
     ∧ HasError_at diags = true)
  ∨ (∃ conf c,
       watsonProvider_Configure p req resp
       = Ok (mkProviderResponse
               (Append_at (Provider_Diags resp) (Provider_Config_Get req).1)
               (Some c) (Some c))
       ∧ HasError_at (Append_at (Provider_Diags resp) (Provider_Config_Get req).1)
         = false
       ∧ IsUnknown (watsonProviderModel.Address cfg) = false
       ∧ IsUnknown (watsonProviderModel.Stack cfg) = false
       ∧ IsUnknown (watsonProviderModel.Scheme cfg) = false
       ∧ address ≠ "" ∧ stack ≠ ""
       ∧ (NewClient p conf).2 = Ok c
       ∧ layered_address p conf = address
       ∧ layered_stack p conf = stack
       ∧ layered_scheme p conf
         = (if String.eqb scheme "" then
              if String.eqb (Getenv p "watson_SCHEME") "" then "https"
              else Getenv p "watson_SCHEME"
            else scheme)).
Proof.
  cbv zeta. unfold watsonProvider_Configure.
  set (cfg := (Provider_Config_Get req).2).
  set (d0 := Append_at (Provider_Diags resp) (Provider_Config_Get req).1).
  set (address := configured p "watson_ADDRESS" (watsonProviderModel.Address cfg)).
  set (scheme := configured p "watson_SCHEME" (watsonProviderModel.Scheme cfg)).
  set (stack := configured p "watson_STACK" (watsonProviderModel.Stack cfg)).
  destruct (HasError_at d0) eqn:H0; [left; eauto|].
  rewrite !HasError_at_if, H0.
  destruct (IsUnknown (watsonProviderModel.Address cfg)),
    (IsUnknown (watsonProviderModel.Stack cfg)),
    (IsUnknown (watsonProviderModel.Scheme cfg)); cbn [orb];
    try (left; eexists; split; [reflexivity|]; lazy iota;
         apply HasError_at_AddAttributeError).
  destruct (String.eqb_spec address "") as [|Ha];
    destruct (String.eqb_spec stack "") as [|Hs]; cbn [orb];
    try (left; eexists; split; [reflexivity|]; lazy iota;
         apply HasError_at_AddAttributeError).
  pose proof (provider_conf_fields p address scheme stack) as Hconf.
  cbv zeta in Hconf. specialize (Hconf Ha Hs).
  set (conf := if nonempty stack then _ else _) in *.
  pose proof (NewClient_not_Panic p conf) as Hnp.
  destruct (NewClient p conf).2 as [c|err|] eqn:Hnew; [|left|done].
  - right. exists conf, c. by repeat (split; [done|]).
  - eexists. split; [reflexivity|]. apply HasError_at_AddError_at.
Qed.

End ConfigureFacts.

(** All that a client made by [NewClient] is known to be. *)
Lemma NewClient_Ok_facts (p : Process) (cfg : Config.t) (c : Client) :
  (NewClient p cfg).2 = Ok c →
  Config.Stack (config c) = layered_stack p cfg
  ∧ headers c = stackHeaders (config c)
  ∧ is_Some (Config.HttpClient (config c))
  ∧ (¬ contains (layered_address p cfg) "://" →
     Config.Address (config c) = layered_address p cfg
     ∧ Config.Scheme (config c) = layered_scheme p cfg)
  ∧ (contains (layered_address p cfg) "://" →
     Config.Scheme (config c) +:+ "://" +:+ Config.Address (config c)
     = layered_address p cfg
     ∧ (Config.Scheme (config c) = "http" ∨ Config.Scheme (config c) = "https")).
Proof.
  intros Hok.
  pose proof (fillDefaults_HttpClient p cfg) as Hh.
  destruct (address_cases (layered_address p cfg)) as [Hno|(pre & rest & Ha & Hno)].
  - rewrite (NewClient_whole _ _ Hno) in Hok. cbn [snd] in Hok.
    injection Hok as <-. cbn [config headers].
    rewrite fillDefaults_Stack, fillDefaults_Address, fillDefaults_Scheme, Hh.
    split; [reflexivity|]. split; [reflexivity|]. split; [eauto|]. split.
    + intros _. split; reflexivity.
    + intros Hc. by destruct Hno.
  - assert (Hc : contains (layered_address p cfg) "://") by (by exists pre, rest).
    rewrite (NewClient_cut _ _ _ _ Ha Hno) in Hok. cbv zeta in Hok.
    assert (Hcase : ∃ scheme, (scheme = "http" ∨ scheme = "https") ∧ pre = scheme
              ∧ c = mkClient
                      (Config.mk rest scheme (Config.Stack (fillDefaults p cfg))
                         (Config.HttpClient (fillDefaults p cfg)))
                      (stackHeaders
                         (Config.mk rest scheme (Config.Stack (fillDefaults p cfg))
                            (Config.HttpClient (fillDefaults p cfg))))).
    { destruct (String.eqb_spec pre "http") as [->|_].
      - cbn [snd] in Hok. injection Hok as <-. exists "http". auto.
      - destruct (String.eqb_spec pre "https") as [->|_]; [|done].
        cbn [snd] in Hok. injection Hok as <-. exists "https". auto. }
    destruct Hcase as (scheme & Hscheme & -> & ->). cbn [config headers].
    cbn [Config.Stack Config.Address Config.Scheme Config.HttpClient].
    rewrite fillDefaults_Stack, Hh, Ha.
    split; [reflexivity|]. split; [reflexivity|]. split; [eauto|]. split.
    + intros Hno'. destruct Hno'. by exists scheme, rest.
    + intros _. split; [reflexivity|exact Hscheme].
Qed.

(** X18: the provider's [Configure] always returns, and it ends in one of
    two ways: with an error among its diagnostics and the data of the
    response as they were, or without an error and with one client stored
    both as [DataSourceData] and as [ResourceData]. *)
Theorem watsonProvider_Configure_outcome `{GoLib} (p : Process)
    (req : ProviderRequest) (resp : ProviderResponse) :
  ∃ resp',
    watsonProvider_Configure p req resp = Ok resp'
    ∧ ((HasError_at (Provider_Diags resp') = true
        ∧ DataSourceData resp' = DataSourceData resp
        ∧ ResourceData resp' = ResourceData resp)
       ∨ (HasError_at (Provider_Diags resp') = false
          ∧ ∃ c, DataSourceData resp' = Some c ∧ ResourceData resp' = Some c)).
Proof.
  destruct (Configure_cases p req resp)
    as [(diags & -> & Herr)|(conf & c & -> & Hclean & _)].
  - eexists. split; [reflexivity|]. by left.
  - eexists. split; [reflexivity|]. right. eauto.
Qed.

(** X19: the client the provider stores. When [Configure] ends without an
    error, the address and the stack it settled on (the attribute when it
    is not null, else the environment variable) are not empty; the client
    has that stack, the header [X-Watson-Stack] with it, and a transport;
    for an address without ["://"] its host is the address and its scheme
    the one settled on, or failing that the environment's, or [https]; for
    an address with ["://"] its scheme is [http] or [https] and scheme,
    ["://"] and host make up the address. *)
Theorem watsonProvider_Configure_client `{GoLib} (p : Process)
    (req : ProviderRequest) (resp resp' : ProviderResponse) :
  let cfg := (Provider_Config_Get req).2 in
  let address := configured p "watson_ADDRESS" (watsonProviderModel.Address cfg) in
  let scheme := configured p "watson_SCHEME" (watsonProviderModel.Scheme cfg) in
  let stack := configured p "watson_STACK" (watsonProviderModel.Stack cfg) in
  watsonProvider_Configure p req resp = Ok resp' →
  HasError_at (Provider_Diags resp') = false →
  ∃ c,
    DataSourceData resp' = Some c ∧ ResourceData resp' = Some c
    ∧ address ≠ "" ∧ stack ≠ ""
    ∧ Config.Stack (config c) = stack
    ∧ headers c = [("X-Watson-Stack", [stack])]
    ∧ is_Some (Config.HttpClient (config c))
    ∧ (¬ contains address "://" →
       Config.Address (config c) = address
       ∧ Config.Scheme (config c)
         = (if String.eqb scheme "" then
              if String.eqb (Getenv p "watson_SCHEME") "" then "https"
              else Getenv p "watson_SCHEME"
            else scheme))
    ∧ (contains address "://" →
       Config.Scheme (config c) +:+ "://" +:+ Config.Address (config c) = address
       ∧ (Config.Scheme (config c) = "http" ∨ Config.Scheme (config c) = "https")).
Proof.
  cbv zeta. intros Hconf Hclean.
  destruct (Configure_cases p req resp)
    as [(diags & Heq & Herr)|(conf & c & Heq & _ & _ & _ & _ & Ha & Hs & Hnew & Hla & Hls & Hlsch)];
    rewrite Heq in Hconf; injection Hconf as <-.
  - cbn [Provider_Diags] in Hclean. congruence.
  - destruct (NewClient_Ok_facts p conf c Hnew) as (Hstack & Hhead & Hhttp & Hwhole & Hcut).
    rewrite Hla, Hls in *. rewrite Hlsch in Hwhole.
    exists c. cbn [DataSourceData ResourceData].
    do 5 (split; [done|]). split; [|split; [done|split; [exact Hwhole|exact Hcut]]].
    rewrite Hhead. unfold stackHeaders, nonempty. rewrite Hstack.
    by destruct (String.eqb_spec (configured p "watson_STACK"
                   (watsonProviderModel.Stack (Provider_Config_Get req).2)) "").
Qed.

Lemma watsonProvider_Configure_client_witness :
  ∃ c,
    @watsonProvider_Configure sampleLib
      (process_with "env.example" "http" "frontend/dev")
      (mkProviderRequest
         ([], watsonProviderModel.mk (StringValue "https://watson.example")
                StringNull StringNull))
      (mkProviderResponse [] None None)
    = Ok (mkProviderResponse [] (Some c) (Some c))
    ∧ Config.Address (config c) = "watson.example"
    ∧ Config.Scheme (config c) = "https"
    ∧ headers c = [("X-Watson-Stack", ["frontend/dev"])].
Proof.
  eexists. split; [reflexivity|].
  destruct (@watsonProvider_Configure_client sampleLib
              (process_with "env.example" "http" "frontend/dev")
              (mkProviderRequest
                 ([], watsonProviderModel.mk (StringValue "https://watson.example")
                        StringNull StringNull))
              (mkProviderResponse [] None None) _ eq_refl eq_refl)
    as (c & Hd & _ & _ & _ & _ & Hh & _ & _ & _).
  injection Hd as <-. split; [reflexivity|]. split; [reflexivity|]. exact Hh.
Defined.

(** X20: a missing address or stack. When the configuration was read
    without error and holds no unknown value, and the address or the stack
    [Configure] settles on is empty (an attribute set to the empty string
    counts as settled, the environment is not consulted for it), [Configure]
    stores no client and reports [Missing watson API Address] on [address],
    [Missing watson API stack] on [stack], or both. *)
Theorem watsonProvider_Configure_missing `{GoLib} (p : Process)
    (req : ProviderRequest) (resp : ProviderResponse) :
  let cfg := (Provider_Config_Get req).2 in
  let address := configured p "watson_ADDRESS" (watsonProviderModel.Address cfg) in
  let stack := configured p "watson_STACK" (watsonProviderModel.Stack cfg) in
  HasError_at (Append_at (Provider_Diags resp) (Provider_Config_Get req).1) = false →
  IsUnknown (watsonProviderModel.Address cfg) = false →
  IsUnknown (watsonProviderModel.Stack cfg) = false →
  IsUnknown (watsonProviderModel.Scheme cfg) = false →
  address = "" ∨ stack = "" →
  ∃ resp',
    watsonProvider_Configure p req resp = Ok resp'
    ∧ DataSourceData resp' = DataSourceData resp
    ∧ ResourceData resp' = ResourceData resp
    ∧ (address = "" →
       mkAttributeDiagnostic (Some "address")
         (mkDiagnostic SeverityError "Missing watson API Address"
            missing_address_detail)
       ∈ Provider_Diags resp')
    ∧ (stack = "" →
       mkAttributeDiagnostic (Some "stack")
         (mkDiagnostic SeverityError "Missing watson API stack" missing_stack_detail)
       ∈ Provider_Diags resp').
Proof.
  cbv zeta. intros Hclean Ua Ust Usc Hmissing.
  unfold watsonProvider_Configure.
  rewrite Hclean, Ua, Ust, Usc, Hclean, !HasError_at_if, Hclean.
  set (address := configured p "watson_ADDRESS" _) in *.
  set (stack := configured p "watson_STACK" _) in *.
  destruct (String.eqb_spec address "") as [Ha|Ha];
    destruct (String.eqb_spec stack "") as [Hs|Hs]; cbn [orb];
    try (by destruct Hmissing);
    (eexists; split; [reflexivity|]);
    cbn [Provider_Diags DataSourceData ResourceData];
    (split; [done|]; split; [done|]; split; intros ?; try congruence);
    rewrite ?elem_of_AddAttributeError; auto 10.
Qed.

Lemma watsonProvider_Configure_missing_witness :
  ∃ resp',
    @watsonProvider_Configure sampleLib
      (process_with "env.example" "" "frontend/dev")
      (mkProviderRequest
         ([], watsonProviderModel.mk (StringValue "") StringNull StringNull))
      (mkProviderResponse [] None None)
    = Ok resp'
    ∧ DataSourceData resp' = None
    ∧ mkAttributeDiagnostic (Some "address")
        (mkDiagnostic SeverityError "Missing watson API Address"
           missing_address_detail)
      ∈ Provider_Diags resp'.
Proof.
  destruct (@watsonProvider_Configure_missing sampleLib
              (process_with "env.example" "" "frontend/dev")
              (mkProviderRequest
                 ([], watsonProviderModel.mk (StringValue "") StringNull StringNull))
              (mkProviderResponse [] None None)
              eq_refl eq_refl eq_refl eq_refl (or_introl eq_refl))
    as (resp' & Hconf & Hdata & _ & Haddr & _).
  exists resp'. split; [exact Hconf|]. split; [exact Hdata|]. by apply Haddr.
Defined.

(** X21: an unknown value. When the configuration was read without error
    and its address, stack or scheme is unknown, [Configure] stores no
    client and adds one error for each unknown attribute, on that
    attribute, and nothing else: the values are not looked at further. *)
Theorem watsonProvider_Configure_unknown `{GoLib} (p : Process)
    (req : ProviderRequest) (resp : ProviderResponse) :
  let cfg := (Provider_Config_Get req).2 in
  let before := Append_at (Provider_Diags resp) (Provider_Config_Get req).1 in
  let unknown_address :=
    mkAttributeDiagnostic (Some "address")
      (mkDiagnostic SeverityError "Unknown watson API Host" unknown_address_detail) in
  let unknown_stack :=
    mkAttributeDiagnostic (Some "stack")
      (mkDiagnostic SeverityError "Unknown watson API stack" unknown_stack_detail) in
  let unknown_scheme :=
    mkAttributeDiagnostic (Some "scheme")
      (mkDiagnostic SeverityError "Unknown watson API stack" unknown_scheme_detail) in
  HasError_at before = false →
  IsUnknown (watsonProviderModel.Address cfg) = true
  ∨ IsUnknown (watsonProviderModel.Stack cfg) = true
  ∨ IsUnknown (watsonProviderModel.Scheme cfg) = true →
  ∃ resp',
    watsonProvider_Configure p req resp = Ok resp'
    ∧ DataSourceData resp' = DataSourceData resp
    ∧ ResourceData resp' = ResourceData resp
    ∧ ∀ e, e ∈ Provider_Diags resp' ↔
        e ∈ before
        ∨ (IsUnknown (watsonProviderModel.Address cfg) = true ∧ e = unknown_address)
        ∨ (IsUnknown (watsonProviderModel.Stack cfg) = true ∧ e = unknown_stack)
        ∨ (IsUnknown (watsonProviderModel.Scheme cfg) = true ∧ e = unknown_scheme).
Proof.
  cbv zeta. intros Hclean Hunknown.
  unfold watsonProvider_Configure. rewrite Hclean, !HasError_at_if, Hclean.
  destruct (IsUnknown (watsonProviderModel.Address _)),
    (IsUnknown (watsonProviderModel.Stack _)),
    (IsUnknown (watsonProviderModel.Scheme _)); cbn [orb];
    try (by destruct Hunknown as [?|[?|?]]);
    (eexists; split; [reflexivity|]);
    cbn [Provider_Diags DataSourceData ResourceData];
    (split; [done|]; split; [done|]); intros e;
    rewrite ?elem_of_AddAttributeError; intuition congruence.
Qed.

Lemma watsonProvider_Configure_unknown_witness :
  ∃ resp',
    @watsonProvider_Configure sampleLib
      (process_with "env.example" "" "frontend/dev")
      (mkProviderRequest
         ([], watsonProviderModel.mk StringNull StringUnknown StringNull))
      (mkProviderResponse [] None None)
    = Ok resp'
    ∧ DataSourceData resp' = None
    ∧ mkAttributeDiagnostic (Some "scheme")
        (mkDiagnostic SeverityError "Unknown watson API stack" unknown_scheme_detail)
      ∈ Provider_Diags resp'.
Proof.
  destruct (@watsonProvider_Configure_unknown sampleLib
              (process_with "env.example" "" "frontend/dev")
              (mkProviderRequest
                 ([], watsonProviderModel.mk StringNull StringUnknown StringNull))
              (mkProviderResponse [] None None)
              eq_refl (or_intror (or_intror eq_refl)))
    as (resp' & Hconf & Hdata & _ & Hdiags).
  exists resp'. split; [exact Hconf|]. split; [exact Hdata|].
  apply Hdiags. right. right. right. by split.
Defined.

(** * Configuring the data source *)

Section EndToEnd.
Context `{GoLib}.

Lemma GetOutputs_not_Panic (c : Client) stack wire :
  is_Some (Config.HttpClient (config c)) →
  (GetOutputs (Some c) stack wire).1 ≠ Panic.
Proof.
  intros [h Hh].
  unfold GetOutputs, doRequest, send, fail, mbind, M_bind, mret, M_ret.
  rewrite Hh. repeat case_match; simplify_eq/=; done.
Qed.

Lemma Read_runs_GetOutputs Sensitive range State_Set d req resp wire :
  ((Read Sensitive range State_Set d req resp wire).1 = Panic →
   (GetOutputs (client d)
      (ValueString (OutputsDataSourceModel.Stack (Config_Get req).2)) wire).1
   = Panic)
  ∧ ((Read Sensitive range State_Set d req resp wire).2 = wire
     ∨ (Read Sensitive range State_Set d req resp wire).2
       = (GetOutputs (client d)
            (ValueString (OutputsDataSourceModel.Stack (Config_Get req).2)) wire).2).
Proof.
  unfold Read.
  destruct (HasError (Append (Diags resp) (Config_Get req).1)).
  { split; [done|by left]. }
  destruct (GetOutputs _ _ wire) as [[[outputs|]|err|] w];
    (split; [done|by right]).
Qed.

End EndToEnd.

(** X22: [Read] on a data source whose [Configure] was handed a client
    made by [NewClient] never panics. On a new data source whose
    [Configure] was handed no client ([nil], a [nil] client, or a value of
    another type), [Read] panics in [doRequest] whenever the configuration
    was read without error, the stack name is valid and the request builds;
    the transport has not been called by then. *)
Theorem configured_data_source_reads `{GoLib}
    (Sensitive : Output → bool)
    (range : Outputs → list (string * Output))
    (State_Set : OutputsDataSourceModel.t → Diagnostics)
    (diags : Diagnostics)
    (req : ReadRequest) (resp : ReadResponse) (wire : list Request) :
  let stack := ValueString (OutputsDataSourceModel.Stack (Config_Get req).2) in
  (∀ p cfg c d,
     (NewClient p cfg).2 = Ok c →
     (Read Sensitive range State_Set
        (OutputsDataSource_Configure d (ClientData (Some c)) diags).1
        req resp wire).1 ≠ Panic)
  ∧ (∀ data,
       (∀ c, data ≠ ClientData (Some c)) →
       HasError (Append (Diags resp) (Config_Get req).1) = false →
       validateStackName stack = None →
       NewRequest_error ("/v1/projects/" +:+ stack +:+ "/outputs/") = None →
       Read Sensitive range State_Set
         (OutputsDataSource_Configure (mkOutputsDataSource None) data diags).1
         req resp wire
       = (Panic, wire)).
Proof.
  cbv zeta. split.
  - intros p cfg c d Hnew Hp.
    destruct (NewClient_Ok_facts p cfg c Hnew) as (_ & _ & Hhttp & _).
    cbn [OutputsDataSource_Configure fst] in Hp.
    apply Read_runs_GetOutputs in Hp. cbn [client] in Hp.
    by apply GetOutputs_not_Panic in Hp.
  - intros data Hdata Hclean Hvalid Hbuilds.
    assert (Hd : (OutputsDataSource_Configure (mkOutputsDataSource None) data diags).1
                 = mkOutputsDataSource None).
    { destruct data as [|[c|]|type_name]; try done. by destruct (Hdata c). }
    rewrite Hd. unfold Read. rewrite Hclean. cbn [client].
    unfold GetOutputs. rewrite Hvalid.
    unfold mbind, M_bind, doRequest. rewrite Hbuilds. reflexivity.
Qed.

(** X22 at work: the same read on a data source configured with a client
    of [NewClient], and on one that was handed nothing. *)
Lemma configured_data_source_reads_witness :
  (∃ c,
     (NewClient (process_with "watson.example" "" "") (Config.mk "" "" "" None)).2
     = Ok c
     ∧ (@Read sampleLib (λ _, false) map_to_list (λ _, [])
          (OutputsDataSource_Configure (mkOutputsDataSource None)
             (ClientData (Some c)) []).1
          (mkReadRequest
             ([], OutputsDataSourceModel.mk StringNull (StringValue "hello/world")
                    MapNull))
          (mkReadResponse [] None) []).1
       ≠ Panic)
  ∧ @Read sampleLib (λ _, false) map_to_list (λ _, [])
      (OutputsDataSource_Configure (mkOutputsDataSource None) NoProviderData []).1
      (mkReadRequest
         ([], OutputsDataSourceModel.mk StringNull (StringValue "hello/world") MapNull))
      (mkReadResponse [] None) []
    = (Panic, []).
Proof.
  destruct (@configured_data_source_reads sampleLib (λ _, false) map_to_list (λ _, [])
              []
              (mkReadRequest
                 ([], OutputsDataSourceModel.mk StringNull (StringValue "hello/world")
                        MapNull))
              (mkReadResponse [] None) []) as [Hsafe Hpanic].
  split.
  - eexists. split; [reflexivity|].
    apply (Hsafe (process_with "watson.example" "" "") (Config.mk "" "" "" None)).
    reflexivity.
  - apply Hpanic; [discriminate|reflexivity..].
Defined.

(** X23: the scheme of a client made by [NewClient] is never empty: it is
    the prefix [http] or [https] of the address, or the scheme that was
    supplied, or [https]. *)
Theorem NewClient_scheme_is_set (p : Process) (cfg : Config.t) (c : Client) :
  (NewClient p cfg).2 = Ok c → Config.Scheme (config c) ≠ "".
Proof.
  intros Hok.
  destruct (NewClient_Ok_facts p cfg c Hok) as (_ & _ & _ & Hwhole & Hcut).
  destruct (address_cases (layered_address p cfg)) as [Hno|(pre & rest & Ha & Hno)].
  - destruct (Hwhole Hno) as [_ ->]. unfold layered_scheme.
    destruct (String.eqb_spec (Config.Scheme cfg) ""); [|done].
    by destruct (String.eqb_spec (Getenv p "watson_SCHEME") "").
  - destruct Hcut as [_ [-> | ->]]; [by exists pre, rest|done..].
Qed.

Lemma NewClient_scheme_is_set_witness :
  ∃ c, (NewClient (process_with "watson.example" "" "") (Config.mk "" "" "" None)).2 = Ok c
       ∧ Config.Scheme (config c) ≠ "".
Proof.
  eexists. split; [reflexivity|].
  apply (NewClient_scheme_is_set (process_with "watson.example" "" "")
           (Config.mk "" "" "" None)).
  reflexivity.
Defined.
